(** * cprofilev: the statistics rendering engine of [cprofilev.py]

    A shallow embedding of the [Stats] and [CProfileV] classes of
    [cprofilev.py], and the properties of the report parser, the link
    rewriter, the capture stream and the page assembly.

    Python [str] values are modelled as [string]: sequences of code points
    below 256, with Python 3's notions of line boundary and whitespace on
    that range.  A Python [list] is a [list]; a [dict] is an association
    list in insertion order with unique keys (the order [dict.keys()]
    iterates in); an exception is an explicit [Raise] result. *)

From Stdlib Require Import String Ascii List Bool Arith ZArith Lia.
Import ListNotations.

Local Open Scope list_scope.
Local Open Scope string_scope.

(** ** Python values: strings, lists, exceptions *)

Module Py.

(** The line feed ['\n'], the only character the regex [.] refuses and the
    only one [$] may stand before. *)
Definition LF : ascii := "010"%char.
Definition nl : string := String LF "".

Definition is_newline (c : ascii) : bool := Ascii.eqb c LF.

(** [str.splitlines] boundaries: \n \v \f \r \x1c \x1d \x1e \x85
    ("\r\n" counts as one boundary, see [splitlines_from]). *)
Definition is_line_boundary (c : ascii) : bool :=
  let n := nat_of_ascii c in
  ((n =? 10) || (n =? 11) || (n =? 12) || (n =? 13)
   || (n =? 28) || (n =? 29) || (n =? 30) || (n =? 133))%nat.

Definition is_cr (c : ascii) : bool := (nat_of_ascii c =? 13)%nat.

(** [str.isspace] on one character: \t \n \v \f \r, \x1c..\x1f, space,
    \x85 and \xa0. *)
Definition isspace (c : ascii) : bool :=
  let n := nat_of_ascii c in
  (((9 <=? n) && (n <=? 13)) || ((28 <=? n) && (n <=? 32))
   || (n =? 133) || (n =? 160))%nat.

Definition is_empty (s : string) : bool :=
  match s with EmptyString => true | String _ _ => false end.

(** Truth value of a [str]: every string but the empty one is true. *)
Definition truthy (s : string) : bool := negb (is_empty s).

(** [s.splitlines(keepends)], scanning [s] with the current line in
    [line]. *)
Fixpoint splitlines_from (keepends : bool) (line s : string) : list string :=
  match s with
  | EmptyString => if is_empty line then [] else [line]
  | String c t =>
      if is_cr c then
        match t with
        | String d t' =>
            if is_newline d
            then (if keepends then line ++ String c (String d "") else line)
                   :: splitlines_from keepends "" t'
            else (if keepends then line ++ String c "" else line)
                   :: splitlines_from keepends "" t
        | EmptyString => [if keepends then line ++ String c "" else line]
        end
      else if is_line_boundary c then
        (if keepends then line ++ String c "" else line)
          :: splitlines_from keepends "" t
      else splitlines_from keepends (line ++ String c "") t
  end.

Definition splitlines (keepends : bool) (s : string) : list string :=
  splitlines_from keepends "" s.

(** [s.split()]: maximal runs of non-whitespace characters. *)
Fixpoint split_from (tok s : string) : list string :=
  match s with
  | EmptyString => if is_empty tok then [] else [tok]
  | String c t =>
      if isspace c
      then (if is_empty tok then split_from "" t else tok :: split_from "" t)
      else split_from (tok ++ String c "") t
  end.

Definition split (s : string) : list string := split_from "" s.

(** [sep.join(l)]. *)
Definition join (sep : string) (l : list string) : string :=
  String.concat sep l.

Fixpoint startswith (p s : string) : bool :=
  match p, s with
  | EmptyString, _ => true
  | String a p', String b s' => Ascii.eqb a b && startswith p' s'
  | String _ _, EmptyString => false
  end.

(** [p in s]: [p] occurs in [s] as a substring. *)
Fixpoint contains (p s : string) : bool :=
  startswith p s
  || match s with
     | EmptyString => false
     | String _ s' => contains p s'
     end.

(** [s[:-1]]. *)
Fixpoint drop_last (s : string) : string :=
  match s with
  | EmptyString => ""
  | String c t => if is_empty t then "" else String c (drop_last t)
  end.

(** [x in l] for a list of strings. *)
Definition str_in (x : string) (l : list string) : bool :=
  existsb (String.eqb x) l.

(** A list of the characters of [s], each as a string of length one: what
    iterating over a [str] gives. *)
Fixpoint chars (s : string) : list string :=
  match s with
  | EmptyString => []
  | String c t => String c "" :: chars t
  end.

Inductive exn : Type := IndexError.

Inductive result (A : Type) : Type :=
| Ok (a : A)
| Raise (e : exn).
Arguments Ok {A} a.
Arguments Raise {A} e.

Definition bind {A B : Type} (r : result A) (k : A -> result B) : result B :=
  match r with
  | Ok a => k a
  | Raise e => Raise e
  end.

(** The position a list of length [len] gives to index [i]: negative
    indices count from the end, anything outside raises. *)
Definition index_of (len : nat) (i : Z) : result nat :=
  let j := (if i <? 0 then i + Z.of_nat len else i)%Z in
  if ((0 <=? j) && (j <? Z.of_nat len))%Z then Ok (Z.to_nat j)
  else Raise IndexError.

(** [l[i]]. *)
Definition getitem {A : Type} (l : list A) (i : Z) : result A :=
  bind (index_of (List.length l) i)
       (fun n => match nth_error l n with
                 | Some x => Ok x
                 | None => Raise IndexError
                 end).

Fixpoint set_nth {A : Type} (l : list A) (n : nat) (x : A) : list A :=
  match l, n with
  | [], _ => []
  | _ :: t, O => x :: t
  | h :: t, S n' => h :: set_nth t n' x
  end.

(** [l[i] = x]. *)
Definition setitem {A : Type} (l : list A) (i : Z) (x : A) : result (list A) :=
  bind (index_of (List.length l) i) (fun n => Ok (set_nth l n x)).

End Py.

Notation "x <- c1 ;; c2" := (Py.bind c1 (fun x => c2))
  (at level 61, c1 at next level, right associativity).

(** ** The pieces of [bottle] the program calls *)

Module Bottle.

(** [bottle.html_escape], character by character: & < > double quote and
    single quote become entities. *)
Definition escape_char (c : ascii) : string :=
  if Ascii.eqb c "&"%char then "&amp;"
  else if Ascii.eqb c "<"%char then "&lt;"
  else if Ascii.eqb c ">"%char then "&gt;"
  else if Ascii.eqb c "034"%char then "&quot;"
  else if Ascii.eqb c "'"%char then "&#039;"
  else String c "".

Fixpoint html_escape (s : string) : string :=
  match s with
  | EmptyString => ""
  | String c t => escape_char c ++ html_escape t
  end.

(** A SimpleTemplate source, line by line.  A text line is a sequence of
    literal text, [{{ var }}] (escaped) and [{{ !var }}] (as it is); a
    line [% if var:] opens a block, which only a line [% end] closes. *)
Inductive segment : Type :=
| Lit (text : string)
| Esc (var : string)
| Raw (var : string).

Inductive tline : Type :=
| Text (segs : list segment)
| If (var : string)
| End_.

(** The keyword arguments of [bottle.template]. *)
Definition env : Type := list (string * string).

Fixpoint lookup (e : env) (var : string) : string :=
  match e with
  | [] => ""
  | (k, v) :: e' => if String.eqb k var then v else lookup e' var
  end.

Definition render_segment (e : env) (g : segment) : string :=
  match g with
  | Lit text => text
  | Esc var => html_escape (lookup e var)
  | Raw var => lookup e var
  end.

Fixpoint render_segments (e : env) (segs : list segment) : string :=
  match segs with
  | [] => ""
  | g :: segs' => render_segment e g ++ render_segments e segs'
  end.

(** Rendering under the open blocks [blocks] (the truth values of their
    conditions, innermost first): a text line is written when every open
    block holds. *)
Fixpoint render_lines (e : env) (blocks : list bool) (ls : list tline) : string :=
  match ls with
  | [] => ""
  | Text segs :: ls' =>
      (if forallb (fun b => b) blocks then render_segments e segs else "")
        ++ render_lines e blocks ls'
  | If var :: ls' => render_lines e (Py.truthy (lookup e var) :: blocks) ls'
  | End_ :: ls' => render_lines e (tl blocks) ls'
  end.

(** [bottle.template(source, **e)]. *)
Definition template (source : list tline) (e : env) : string :=
  render_lines e [] source.

(** [bottle.request.query]: the pairs of the query string in the order
    they were sent; a key may occur more than once. *)
Definition multidict : Type := list (string * string).

(** [d[key] = val] on an insertion-ordered [dict]. *)
Fixpoint dict_set (d : list (string * string)) (key val : string)
  : list (string * string) :=
  match d with
  | [] => [(key, val)]
  | (k, v) :: d' =>
      if String.eqb k key then (k, val) :: d'
      else (k, v) :: dict_set d' key val
  end.

Fixpoint dict_get (d : list (string * string)) (key : string) : option string :=
  match d with
  | [] => None
  | (k, v) :: d' => if String.eqb k key then Some v else dict_get d' key
  end.

(** [dict(query)]: each key once, in the order of its first occurrence,
    with the value of its last occurrence. *)
Definition to_dict (q : multidict) : list (string * string) :=
  fold_left (fun d kv => dict_set d (fst kv) (snd kv)) q [].

(** [query.get(key)]: the last value sent for [key]. *)
Definition query_get (q : multidict) (key : string) : option string :=
  dict_get (to_dict q) key.

End Bottle.

(** ** The capture stream *)

Module StringIO.

Record t : Type := mk { buf : string; pos : nat }.

Definition empty : t := mk "" 0.

Definition NUL : ascii := "000"%char.

Fixpoint zeros (n : nat) : string :=
  match n with
  | O => ""
  | S n' => String NUL (zeros n')
  end.

Fixpoint skip (n : nat) (s : string) : string :=
  match n, s with
  | O, _ => s
  | S n', String _ s' => skip n' s'
  | S _, EmptyString => ""
  end.

Fixpoint take (n : nat) (s : string) : string :=
  match n, s with
  | S n', String c s' => String c (take n' s')
  | _, _ => ""
  end.

(** [stream.write(s)]: [s] replaces what lies at the position, which moves
    past it; a position beyond the end is reached with NUL characters. *)
Definition write (st : t) (s : string) : t :=
  let b := buf st ++ zeros (pos st - String.length (buf st)) in
  mk (take (pos st) b ++ s ++ skip (pos st + String.length s) b)
     (pos st + String.length s).

Definition getvalue (st : t) : string := buf st.

Definition seek (st : t) (p : nat) : t := mk (buf st) p.

(** [stream.truncate()]: cut at the current position. *)
Definition truncate (st : t) : t := mk (take (pos st) (buf st)) (pos st).

End StringIO.

(** ** The profiler backend

    [pstats.Stats] prints its reports into the stream it was built with.
    For each kind of report and each restriction, the backend is the
    sequence of texts it writes. *)

Record pstats : Type := {
  print_stats : string -> list string;
  print_callers : string -> list string;
  print_callees : string -> list string
}.

(** ** class Stats *)

Module Stats.

Definition SORT_KEY : string := "sort".
Definition FUNC_NAME_KEY : string := "func_name".

Definition IGNORE_FUNC_NAMES : list string := ["function"; ""].

(** *** STATS_LINE_REGEX

    The pattern is: a group of [.]-star, an opening parenthesis, a second
    group of [.]-star, a closing parenthesis, [$].  The matcher follows the regex as a backtracking engine runs it: each
    [.*] first takes one more character (any but the line feed) and gives
    it back when the rest fails. *)

(** [$]: at the end of the string, or before a line feed that ends it. *)
Definition at_dollar (s : string) : bool :=
  match s with
  | EmptyString => true
  | String c EmptyString => Py.is_newline c
  | String _ (String _ _) => false
  end.

(** The second group, the closing parenthesis and [$] at the start of
    [s]: the text of the group. *)
Fixpoint match_name (s : string) : option string :=
  match s with
  | EmptyString => None
  | String c t =>
      match (if Py.is_newline c then None else match_name t) with
      | Some name => Some (String c name)
      | None =>
          if Ascii.eqb c ")"%char && at_dollar t then Some "" else None
      end
  end.

(** The whole regex at the start of [s]: the texts of the two groups. *)
Fixpoint match_here (s : string) : option (string * string) :=
  match s with
  | EmptyString => None
  | String c t =>
      match (if Py.is_newline c then None else match_here t) with
      | Some (prefix, name) => Some (String c prefix, name)
      | None =>
          if Ascii.eqb c "("%char
          then match match_name t with
               | Some name => Some ("", name)
               | None => None
               end
          else None
      end
  end.

(** [re.search(STATS_LINE_REGEX, s)]: the match at the leftmost position
    that has one. *)
Fixpoint search_stats_line (s : string) : option (string * string) :=
  match match_here s with
  | Some groups => Some groups
  | None =>
      match s with
      | EmptyString => None
      | String _ t => search_stats_line t
      end
  end.

(** *** HEADER_LINE_REGEX = r'ncalls|tottime|cumtime'

    [re.search] of an alternation of three literals finds a match when one
    of them occurs in the line. *)
Definition search_header_line (line : string) : bool :=
  Py.contains "ncalls" line || Py.contains "tottime" line
  || Py.contains "cumtime" line.

(** *** The object: the backend and the stream it prints into *)

Record t : Type := mk { stats : pstats; stream : StringIO.t }.

Definition init (profile : pstats) : t := mk profile StringIO.empty.

Definition read_stream (self : t) : string * t :=
  let value := StringIO.getvalue (stream self) in
  let stream1 := StringIO.seek (stream self) 0 in
  let stream2 := StringIO.truncate stream1 in
  (value, mk (stats self) stream2).

Definition get_updated_href (request_query : Bottle.multidict)
           (key val : string) : string :=
  let href := "?" in
  let query := Bottle.to_dict request_query in
  let query := Bottle.dict_set query key val in
  let href :=
    fold_left (fun href kv => href ++ (fst kv ++ "=" ++ snd kv ++ "&"))
              query href in
  Py.drop_last href.

(** The two templates of [process_line]. *)
Definition link_template : list Bottle.tline :=
  [Bottle.Text [Bottle.Lit "<a href='"; Bottle.Esc "url"; Bottle.Lit "'>";
                Bottle.Esc "func_name"; Bottle.Lit "</a>"]].

Definition line_template : list Bottle.tline :=
  [Bottle.Text [Bottle.Esc "prefix"; Bottle.Lit "(";
                Bottle.Raw "url_link"; Bottle.Lit ")"; Bottle.Lit Py.nl]].

Definition process_line (request_query : Bottle.multidict) (line : string)
  : string :=
  match search_stats_line line with
  | Some (prefix, func_name) =>
      if negb (Py.str_in func_name IGNORE_FUNC_NAMES) then
        let url_link :=
          Bottle.template link_template
            [("url", get_updated_href request_query FUNC_NAME_KEY func_name);
             ("func_name", func_name)] in
        Bottle.template line_template
          [("prefix", prefix); ("url_link", url_link)]
      else line
  | None => line
  end.

Definition read (request_query : Bottle.multidict) (self : t) : string * t :=
  let (output, self) := read_stream self in
  let lines := Py.splitlines true output in
  (Py.join "" (map (process_line request_query) lines), self).

Definition write_all (self : t) (texts : list string) : t :=
  mk (stats self) (fold_left StringIO.write texts (stream self)).

Definition show (self : t) (restriction : string) : t :=
  write_all self (print_stats (stats self) restriction).

Definition show_callers (self : t) (func_name : string) : t :=
  write_all self (print_callers (stats self) func_name).

Definition show_callees (self : t) (func_name : string) : t :=
  write_all self (print_callees (stats self) func_name).

(** The loop of [get_stats_header] over the lines still to read. *)
Fixpoint header_loop (header : string) (lines : list string) : string :=
  match lines with
  | [] => header
  | line :: rest =>
      if search_header_line line then header
      else header_loop (header ++ (line ++ Py.nl)) rest
  end.

Definition get_stats_header (stats_str : string) : string :=
  header_loop "" (Py.splitlines false stats_str).

(** The loop of [iter_stats_table_row]: the rows it yields, in order. *)
Fixpoint rows_loop (in_table : bool) (lines : list string)
  : list (list string) :=
  match lines with
  | [] => []
  | line :: rest =>
      let in_table := if search_header_line line then true else in_table in
      let cols := Py.split line in
      if in_table && negb (match cols with [] => true | _ => false end)
      then (firstn 5 cols ++ [Py.join " " (skipn 5 cols)])%list
             :: rows_loop in_table rest
      else rows_loop in_table rest
  end.

Definition iter_stats_table_row (stats_str : string) : list (list string) :=
  rows_loop false (Py.splitlines false stats_str).

(** ['<%s>%s</%s>' % (col_el, col, col_el)] *)
Definition cell (col_el col : string) : string :=
  "<" ++ col_el ++ ">" ++ col ++ "</" ++ col_el ++ ">".

(** One round of the loop of [format_stats_table] on the state
    [(col_el, table_dom)].  [row += '</tr>'] extends the list [row] with
    the five characters of the tag; [row_dom] is appended as the inner
    loop left it. *)
Definition row_step (state : string * list string) (row : list string)
  : string * list string :=
  let (col_el, table_dom) := state in
  let row_dom := "<tr>" in
  let row_dom := fold_left (fun row_dom col => row_dom ++ cell col_el col)
                           row row_dom in
  let row := (row ++ Py.chars "</tr>")%list in
  let col_el := "td" in
  (col_el, (table_dom ++ [row_dom])%list).

Definition table_rows (rows : list (list string)) : list string :=
  snd (fold_left row_step rows ("th", [])).

Definition format_stats_table (stats_str : string) : Py.result string :=
  let table_dom := table_rows (iter_stats_table_row stats_str) in
  x <- Py.getitem table_dom 0 ;;
  table_dom <- Py.setitem table_dom 0 ("<thead>" ++ x ++ "</thead>") ;;
  x <- Py.getitem table_dom 1 ;;
  table_dom <- Py.setitem table_dom 1 ("<tbody>" ++ x) ;;
  x <- Py.getitem table_dom (-1) ;;
  table_dom <- Py.setitem table_dom (-1) (x ++ "</tbody>") ;;
  Py.Ok (Py.join Py.nl table_dom).

End Stats.

(** ** STATS_TEMPLATE and class CProfileV *)

Module CProfileV.

Definition dq : string := String "034"%char "".

(** A line of text with nothing to substitute, and its line feed. *)
Definition T (text : string) : Bottle.tline :=
  Bottle.Text [Bottle.Lit text; Bottle.Lit Py.nl].

Definition cdn : string := "https://cdnjs.cloudflare.com/ajax/libs/".

Definition stylesheet (path : string) : Bottle.tline :=
  T ("        <link rel=" ++ dq ++ "stylesheet" ++ dq ++ " type=" ++ dq
     ++ "text/css" ++ dq ++ " href=" ++ dq ++ cdn ++ path ++ dq ++ ">").

Definition script (path : string) : Bottle.tline :=
  T ("            <script src=" ++ dq ++ cdn ++ path ++ dq ++ "></script>").

(** The template of the page, in the order of the source: the part in
    front of the first [% if] line, the lines between the two [% if]
    lines, and the lines behind the second one.  No [% end] line closes
    either block. *)
Definition page_head : list Bottle.tline :=
  [ T "<html>";
    T "    <head>";
    Bottle.Text [Bottle.Lit "        <title>"; Bottle.Esc "title";
                 Bottle.Lit " | cProfile Results</title>"; Bottle.Lit Py.nl];
    stylesheet "twitter-bootstrap/3.3.6/css/bootstrap.min.css";
    stylesheet "datatables/1.10.10/css/dataTables.bootstrap.min.css";
    T "    </head>";
    T "    <body>";
    T ("        <div class=" ++ dq ++ "container" ++ dq ++ ">");
    Bottle.Text [Bottle.Lit "            <pre>"; Bottle.Raw "stats_header";
                 Bottle.Lit "</pre>"; Bottle.Lit Py.nl];
    Bottle.Text [Bottle.Lit ("            <table class=" ++ dq
                             ++ "table table-striped" ++ dq ++ ">");
                 Bottle.Raw "stats_table"; Bottle.Lit "</table>";
                 Bottle.Lit Py.nl];
    script "jquery/2.1.4/jquery.min.js";
    script "twitter-bootstrap/3.3.6/js/bootstrap.min.js";
    script "datatables/1.10.10/js/jquery.dataTables.min.js";
    script "datatables/1.10.10/js/dataTables.bootstrap.min.js";
    T "            <script>";
    T "                $(document).ready(function(){";
    T "                    $('table').DataTable({";
    T ("                        " ++ dq ++ "order" ++ dq ++ ": [[3, " ++ dq
       ++ "desc" ++ dq ++ "]]");
    T "                    });";
    T "                });";
    T "            </script>";
    T "" ].

Definition called_by_lines : list Bottle.tline :=
  [ T "                <h2>Called By:</h2>";
    Bottle.Text [Bottle.Lit "                <pre>"; Bottle.Raw "callers";
                 Bottle.Lit "</pre>"; Bottle.Lit Py.nl];
    T "" ].

Definition called_lines : list Bottle.tline :=
  [ T "                <h2>Called:</h2>";
    Bottle.Text [Bottle.Lit "                <pre>"; Bottle.Raw "callees";
                 Bottle.Lit "</pre>"; Bottle.Lit Py.nl] ].

Definition page_close : list Bottle.tline :=
  [ T "        </div> <!-- .container -->";
    T "    </body>";
    Bottle.Text [Bottle.Lit "</html>"] ].

Definition STATS_TEMPLATE : list Bottle.tline :=
  (page_head
     ++ [Bottle.If "callers"] ++ called_by_lines
     ++ [Bottle.If "callees"] ++ called_lines
     ++ page_close)%list.

Record t : Type := mk { profile : pstats; title : string }.

(** What [route_handler] reads from the backend, in the order it reads it:
    the callers, the callees and the aggregate report, and the [Stats]
    object after each read. *)
Record reports : Type := mk_reports {
  callers : string;   after_callers : Stats.t;
  callees : string;   after_callees : Stats.t;
  stats_str : string; after_stats : Stats.t
}.

(** [bottle.request.query.get(FUNC_NAME_KEY) or ''] *)
Definition requested_func_name (request_query : Bottle.multidict) : string :=
  match Bottle.query_get request_query Stats.FUNC_NAME_KEY with
  | Some v => if Py.truthy v then v else ""
  | None => ""
  end.

Definition read_reports (self : t) (request_query : Bottle.multidict)
  : reports :=
  let stats := Stats.init (profile self) in
  let func_name := requested_func_name request_query in
  let (callers, stats1) :=
    if Py.truthy func_name
    then Stats.read request_query (Stats.show_callers stats func_name)
    else ("", stats) in
  let (callees, stats2) :=
    if Py.truthy func_name
    then Stats.read request_query (Stats.show_callees stats1 func_name)
    else ("", stats1) in
  let (stats_str, stats3) :=
    Stats.read request_query (Stats.show stats2 func_name) in
  mk_reports callers stats1 callees stats2 stats_str stats3.

Definition route_handler (self : t) (request_query : Bottle.multidict)
  : Py.result string :=
  let r := read_reports self request_query in
  let stats_header := Stats.get_stats_header (stats_str r) in
  stats_table <- Stats.format_stats_table (stats_str r) ;;
  Py.Ok (Bottle.template STATS_TEMPLATE
           [("title", title self);
            ("stats_header", stats_header);
            ("stats_table", stats_table);
            ("callers", callers r);
            ("callees", callees r)]).

End CProfileV.

(** ** Vocabulary of the statements *)

(** The lines in front of the first one that satisfies [stop]. *)
Fixpoint lines_before (stop : string -> bool) (lines : list string)
  : list string :=
  match lines with
  | [] => []
  | line :: rest => if stop line then [] else line :: lines_before stop rest
  end.

(** Each line followed by a line feed. *)
Fixpoint concat_lines (lines : list string) : string :=
  match lines with
  | [] => ""
  | line :: rest => line ++ Py.nl ++ concat_lines rest
  end.

(** Line [k] is the first line the header pattern finds a match in. *)
Definition first_header_at (lines : list string) (k : nat) : Prop :=
  (exists line, nth_error lines k = Some line
                /\ Stats.search_header_line line = true)
  /\ forall i line, i < k -> nth_error lines i = Some line ->
                    Stats.search_header_line line = false.

(** The index of the first line the header pattern finds a match in. *)
Fixpoint first_header (lines : list string) : option nat :=
  match lines with
  | [] => None
  | line :: rest =>
      if Stats.search_header_line line then Some 0
      else option_map S (first_header rest)
  end.

(** A line that holds all three column names. *)
Definition all_three (line : string) : bool :=
  Py.contains "ncalls" line && Py.contains "tottime" line
  && Py.contains "cumtime" line.

(** The row the table loop makes of one line. *)
Definition row_of_line (line : string) : list string :=
  (firstn 5 (Py.split line) ++ [Py.join " " (skipn 5 (Py.split line))])%list.

Definition nonblank (line : string) : bool :=
  match Py.split line with [] => false | _ :: _ => true end.

(** [c] occurs in [s]. *)
Fixpoint has_char (c : ascii) (s : string) : bool :=
  match s with
  | EmptyString => false
  | String a t => Ascii.eqb a c || has_char c t
  end.

(** [line] has the shape  prefix ( name ) , up to a final line feed, on one
    line and with no further opening parenthesis in the name. *)
Definition stats_line (line prefix name : string) : Prop :=
  (line = prefix ++ "(" ++ name ++ ")"
   \/ line = prefix ++ "(" ++ name ++ ")" ++ Py.nl)
  /\ has_char Py.LF prefix = false
  /\ has_char Py.LF name = false
  /\ has_char "("%char name = false.

(** A character [html_escape] rewrites. *)
Definition is_special (c : ascii) : bool :=
  Ascii.eqb c "&"%char || Ascii.eqb c "<"%char || Ascii.eqb c ">"%char
  || Ascii.eqb c "034"%char || Ascii.eqb c "'"%char.

Fixpoint no_special (s : string) : bool :=
  match s with
  | EmptyString => true
  | String c t => negb (is_special c) && no_special t
  end.

(** The markup of one table row: the opening tag and one cell for each
    column, nothing behind the last cell. *)
Fixpoint cells (col_el : string) (row : list string) : string :=
  match row with
  | [] => ""
  | col :: row' => Stats.cell col_el col ++ cells col_el row'
  end.

Definition row_markup (col_el : string) (row : list string) : string :=
  "<tr>" ++ cells col_el row.

(** [suffix] added to the last element of a list. *)
Fixpoint close_last (suffix : string) (l : list string) : list string :=
  match l with
  | [] => []
  | [x] => [x ++ suffix]
  | x :: l' => x :: close_last suffix l'
  end.

(** The text a sequence of writes leaves in a stream that was empty. *)
Fixpoint written (texts : list string) : string :=
  match texts with
  | [] => ""
  | text :: rest => text ++ written rest
  end.

(** The value the last pair with key [key] gives it. *)
Fixpoint last_value (q : Bottle.multidict) (key : string) : option string :=
  match q with
  | [] => None
  | (k, v) :: q' =>
      match last_value q' key with
      | Some v' => Some v'
      | None => if String.eqb k key then Some v else None
      end
  end.

(** What [Stats.read] makes of the text it finds in the stream. *)
Definition linked (request_query : Bottle.multidict) (text : string) : string :=
  Py.join "" (map (Stats.process_line request_query)
                  (Py.splitlines true text)).

(** Every character of [s] satisfies [p]. *)
Fixpoint all_chars (p : ascii -> bool) (s : string) : bool :=
  match s with
  | EmptyString => true
  | String c t => p c && all_chars p t
  end.

(** A token of [str.split]: not empty, no whitespace in it. *)
Definition is_token (s : string) : bool :=
  negb (Py.is_empty s) && all_chars (fun c => negb (Py.isspace c)) s.

(** A character of a joined field: no whitespace but the space itself. *)
Definition field_char (c : ascii) : bool :=
  negb (Py.isspace c) || Ascii.eqb c " "%char.

(** A character that ends no line, or the line feed. *)
Definition header_char (c : ascii) : bool :=
  negb (Py.is_line_boundary c) || Py.is_newline c.

(** A character that [html_escape] leaves in no text: the angle brackets and
    the two quotes. *)
Definition is_markup (c : ascii) : bool :=
  Ascii.eqb c "<"%char || Ascii.eqb c ">"%char
  || Ascii.eqb c "034"%char || Ascii.eqb c "'"%char.

Definition CR : ascii := "013"%char.

(** The keyword arguments [route_handler] gives the template, for the table
    [table]. *)
Definition page_env (self : CProfileV.t) (q : Bottle.multidict)
           (table : string) : Bottle.env :=
  [("title", CProfileV.title self);
   ("stats_header",
    Stats.get_stats_header
      (CProfileV.stats_str (CProfileV.read_reports self q)));
   ("stats_table", table);
   ("callers", CProfileV.callers (CProfileV.read_reports self q));
   ("callees", CProfileV.callees (CProfileV.read_reports self q))].

(** What a browser shows for an escaped text: the character references
    that [html_escape] writes, decoded.  An escaped text holds no other
    reference, every [&] in it starts one of these five.  [skip] counts the
    characters of a reference still to pass. *)
Fixpoint unescape_from (skip : nat) (s : string) : string :=
  match s with
  | EmptyString => ""
  | String c t =>
      match skip with
      | S k => unescape_from k t
      | O =>
          if Py.startswith "&amp;" s then String "&"%char (unescape_from 4 t)
          else if Py.startswith "&lt;" s
               then String "<"%char (unescape_from 3 t)
          else if Py.startswith "&gt;" s
               then String ">"%char (unescape_from 3 t)
          else if Py.startswith "&quot;" s
               then String "034"%char (unescape_from 5 t)
          else if Py.startswith "&#039;" s
               then String "'"%char (unescape_from 5 t)
          else String c (unescape_from 0 t)
      end
  end.

Definition html_unescape (s : string) : string := unescape_from 0 s.





(** [key=value] *)
Definition pair_text (kv : string * string) : string :=
  fst kv ++ "=" ++ snd kv.

(** ** Strings *)

Lemma append_empty_r (s : string) : s ++ "" = s.
Proof. induction s as [|c s IH]; simpl; [reflexivity | now rewrite IH]. Qed.

Lemma append_assoc (a b c : string) : (a ++ b) ++ c = a ++ (b ++ c).
Proof. induction a as [|x a IH]; simpl; [reflexivity | now rewrite IH]. Qed.

Lemma length_append (a b : string) :
  String.length (a ++ b) = String.length a + String.length b.
Proof. induction a as [|x a IH]; simpl; [reflexivity | now rewrite IH]. Qed.

(** ** Indexing a list *)

Lemma index_of_nat (len n : nat) :
  n < len -> Py.index_of len (Z.of_nat n) = Py.Ok n.
Proof.
  intros Hn. unfold Py.index_of.
  replace (Z.of_nat n <? 0)%Z with false by (symmetry; apply Z.ltb_ge; lia).
  replace (0 <=? Z.of_nat n)%Z with true by (symmetry; apply Z.leb_le; lia).
  replace (Z.of_nat n <? Z.of_nat len)%Z with true
    by (symmetry; apply Z.ltb_lt; lia).
  simpl. now rewrite Nat2Z.id.
Qed.

Lemma index_of_nat_out (len n : nat) :
  len <= n -> Py.index_of len (Z.of_nat n) = Py.Raise Py.IndexError.
Proof.
  intros Hn. unfold Py.index_of.
  replace (Z.of_nat n <? 0)%Z with false by (symmetry; apply Z.ltb_ge; lia).
  replace (Z.of_nat n <? Z.of_nat len)%Z with false
    by (symmetry; apply Z.ltb_ge; lia).
  now rewrite andb_false_r.
Qed.

Lemma index_of_last (len : nat) :
  Py.index_of (S len) (-1) = Py.Ok len.
Proof.
  unfold Py.index_of.
  replace (-1 <? 0)%Z with true by reflexivity.
  replace (0 <=? -1 + Z.of_nat (S len))%Z with true
    by (symmetry; apply Z.leb_le; lia).
  replace (-1 + Z.of_nat (S len) <? Z.of_nat (S len))%Z with true
    by (symmetry; apply Z.ltb_lt; lia).
  simpl andb. cbv iota. f_equal. lia.
Qed.

Lemma getitem_nat {A : Type} (l : list A) (n : nat) (x : A) :
  nth_error l n = Some x -> Py.getitem l (Z.of_nat n) = Py.Ok x.
Proof.
  intros H. unfold Py.getitem.
  rewrite index_of_nat by (apply nth_error_Some; congruence).
  simpl. now rewrite H.
Qed.

Lemma getitem_nat_out {A : Type} (l : list A) (n : nat) :
  List.length l <= n -> Py.getitem l (Z.of_nat n) = Py.Raise Py.IndexError.
Proof.
  intros H. unfold Py.getitem. now rewrite index_of_nat_out.
Qed.

Lemma setitem_nat {A : Type} (l : list A) (n : nat) (x : A) :
  n < List.length l -> Py.setitem l (Z.of_nat n) x = Py.Ok (Py.set_nth l n x).
Proof.
  intros H. unfold Py.setitem. now rewrite index_of_nat.
Qed.

Lemma length_set_nth {A : Type} (l : list A) (n : nat) (x : A) :
  List.length (Py.set_nth l n x) = List.length l.
Proof.
  revert n; induction l as [|h t IH]; intros [|n]; simpl; auto.
Qed.

Lemma getitem_last {A : Type} (l : list A) (x : A) :
  Py.getitem (l ++ [x])%list (-1) = Py.Ok x.
Proof.
  unfold Py.getitem. rewrite length_app, Nat.add_comm. simpl List.length.
  rewrite index_of_last. simpl.
  rewrite nth_error_app2 by lia. now rewrite Nat.sub_diag.
Qed.

Lemma set_nth_last {A : Type} (l : list A) (x y : A) :
  Py.set_nth (l ++ [x])%list (List.length l) y = (l ++ [y])%list.
Proof. induction l as [|h t IH]; simpl; [reflexivity | now rewrite IH]. Qed.

Lemma setitem_last {A : Type} (l : list A) (x y : A) :
  Py.setitem (l ++ [x])%list (-1) y = Py.Ok (l ++ [y])%list.
Proof.
  unfold Py.setitem. rewrite length_app, Nat.add_comm. simpl List.length.
  rewrite index_of_last. simpl. now rewrite set_nth_last.
Qed.

Lemma last_case {A : Type} (l : list A) :
  l = [] \/ exists l' x, l = (l' ++ [x])%list.
Proof.
  induction l as [|y l' _] using rev_ind; [now left | right; eauto].
Qed.

Lemma close_last_snoc (suffix : string) (l : list string) (x : string) :
  close_last suffix (l ++ [x])%list = (l ++ [(x ++ suffix)%string])%list.
Proof.
  induction l as [|h t IH]; [reflexivity|].
  change ((h :: t) ++ [x])%list with (h :: (t ++ [x]))%list.
  simpl close_last. rewrite IH.
  destruct t; reflexivity.
Qed.

(** ** The table: [format_stats_table] *)

Lemma fold_cells (col_el : string) (row : list string) (row_dom : string) :
  fold_left (fun row_dom col => row_dom ++ Stats.cell col_el col) row row_dom
  = row_dom ++ cells col_el row.
Proof.
  revert row_dom; induction row as [|col row IH]; intros row_dom; simpl.
  - now rewrite append_empty_r.
  - now rewrite IH, append_assoc.
Qed.

Lemma row_step_markup (col_el : string) (table_dom : list string)
      (row : list string) :
  Stats.row_step (col_el, table_dom) row
  = ("td", (table_dom ++ [row_markup col_el row])%list).
Proof. unfold Stats.row_step, row_markup. now rewrite fold_cells. Qed.

Lemma fold_row_step_td (rows : list (list string)) (table_dom : list string) :
  fold_left Stats.row_step rows ("td", table_dom)
  = ("td", (table_dom ++ map (row_markup "td") rows)%list).
Proof.
  revert table_dom; induction rows as [|row rows IH]; intros table_dom;
    cbn [fold_left map].
  - now rewrite app_nil_r.
  - rewrite row_step_markup, IH, <- app_assoc. reflexivity.
Qed.

Lemma table_rows_nil : Stats.table_rows [] = [].
Proof. reflexivity. Qed.

Lemma table_rows_cons (row : list string) (rows : list (list string)) :
  Stats.table_rows (row :: rows)
  = row_markup "th" row :: map (row_markup "td") rows.
Proof.
  unfold Stats.table_rows. cbn [fold_left].
  rewrite row_step_markup, fold_row_step_td. reflexivity.
Qed.

(** C1. A report whose table has no row or one row does not get a
    placeholder: [format_stats_table] reaches the sectioning step, and the
    access to [table_dom[0]] or [table_dom[1]] raises [IndexError]. *)
Theorem format_stats_table_short_table_raises (stats_str : string) :
  List.length (Stats.iter_stats_table_row stats_str) <= 1 ->
  Stats.format_stats_table stats_str = Py.Raise Py.IndexError.
Proof.
  intros Hlen. unfold Stats.format_stats_table.
  destruct (Stats.iter_stats_table_row stats_str) as [|row [|row' rows]].
  - reflexivity.
  - rewrite table_rows_cons. reflexivity.
  - simpl in Hlen. lia.
Qed.

(** C10. On a table of two rows or more, the markup of every row is the
    opening tag followed by one cell for each column, with no closing tag;
    the cells of the first row are [th] elements, the cells of the other
    rows [td] elements.  The first row is wrapped in [thead], the body is
    opened in front of the second row and closed behind the last. *)
Theorem format_stats_table_rows_markup
        (stats_str : string) (row0 row1 : list string)
        (rows : list (list string)) :
  Stats.iter_stats_table_row stats_str = row0 :: row1 :: rows ->
  Stats.format_stats_table stats_str
  = Py.Ok (Py.join Py.nl
             (("<thead>" ++ row_markup "th" row0 ++ "</thead>")
                :: close_last "</tbody>"
                     (("<tbody>" ++ row_markup "td" row1)
                        :: map (row_markup "td") rows))).
Proof.
  intros Hrows. unfold Stats.format_stats_table.
  rewrite Hrows, table_rows_cons. simpl map.
  set (m0 := row_markup "th" row0). set (m1 := row_markup "td" row1).
  set (ms := map (row_markup "td") rows).
  change 0%Z with (Z.of_nat 0). change 1%Z with (Z.of_nat 1).
  rewrite (getitem_nat _ 0 m0) by reflexivity. cbn [Py.bind].
  rewrite setitem_nat by (simpl; lia). cbn [Py.bind Py.set_nth].
  rewrite (getitem_nat _ 1 m1) by reflexivity. cbn [Py.bind].
  rewrite setitem_nat by (simpl; lia). cbn [Py.bind Py.set_nth].
  set (h0 := "<thead>" ++ m0 ++ "</thead>"). set (h1 := "<tbody>" ++ m1).
  destruct (last_case ms) as [-> | (init & z & ->)].
  - change [h0; h1] with ([h0] ++ [h1])%list.
    rewrite getitem_last. cbn [Py.bind].
    rewrite setitem_last. reflexivity.
  - change (h0 :: h1 :: (init ++ [z]))%list with ((h0 :: h1 :: init) ++ [z])%list.
    rewrite getitem_last. cbn [Py.bind].
    rewrite setitem_last. cbn [Py.bind].
    change (h1 :: (init ++ [z]))%list with ((h1 :: init) ++ [z])%list.
    rewrite close_last_snoc. reflexivity.
Qed.

(** ** Substrings *)

Lemma startswith_spec (p s : string) :
  Py.startswith p s = true <-> exists b, s = p ++ b.
Proof.
  revert s; induction p as [|a p IH]; intros s; simpl.
  - split; [intros _; now exists s | reflexivity].
  - destruct s as [|c s].
    + split; [discriminate | intros (b & Hb); discriminate].
    + rewrite andb_true_iff, IH. split.
      * intros (Hac & b & ->). apply Ascii.eqb_eq in Hac. subst. now exists b.
      * intros (b & Hb). injection Hb as -> ->. split; [apply Ascii.eqb_refl|].
        now exists b.
Qed.

Lemma contains_spec (p s : string) :
  Py.contains p s = true <-> exists a b, s = a ++ p ++ b.
Proof.
  induction s as [|c s IH].
  - simpl. rewrite orb_false_r, startswith_spec. split.
    + intros (b & Hb). now exists "", b.
    + intros ([|x a] & b & Hab); [now exists b | discriminate].
  - cbn [Py.contains]. rewrite orb_true_iff, IH, startswith_spec. split.
    + intros [(b & Hb) | (a & b & ->)]; [now exists "", b|].
      now exists (String c a), b.
    + intros ([|x a] & b & Hab); [left; now exists b|].
      right. injection Hab as -> ->. now exists a, b.
Qed.

Lemma search_header_line_spec (line : string) :
  Stats.search_header_line line = true
  <-> exists a b, line = a ++ "ncalls" ++ b \/ line = a ++ "tottime" ++ b
                  \/ line = a ++ "cumtime" ++ b.
Proof.
  unfold Stats.search_header_line.
  rewrite !orb_true_iff, !contains_spec. split.
  - intros [[(a & b & H) | (a & b & H)] | (a & b & H)]; exists a, b; tauto.
  - intros (a & b & [H | [H | H]]); [left; left | left; right | right];
      now exists a, b.
Qed.

(** ** The header: [get_stats_header] *)

Lemma header_loop_lines_before (header : string) (lines : list string) :
  Stats.header_loop header lines
  = header ++ concat_lines (lines_before Stats.search_header_line lines).
Proof.
  revert header; induction lines as [|line rest IH]; intros header; simpl.
  - now rewrite append_empty_r.
  - destruct (Stats.search_header_line line); simpl.
    + now rewrite append_empty_r.
    + rewrite IH, !append_assoc. reflexivity.
Qed.

Lemma lines_before_first (lines : list string) (k : nat) :
  first_header_at lines k ->
  lines_before Stats.search_header_line lines = firstn k lines.
Proof.
  revert k; induction lines as [|line rest IH]; intros k [(l & Hk & Hl) Hbefore].
  - destruct k; discriminate.
  - destruct k as [|k]; simpl in *.
    + injection Hk as ->. now rewrite Hl.
    + rewrite (Hbefore 0 line) by (simpl; auto; lia). f_equal.
      apply IH. split; [now exists l|].
      intros i l' Hi Hnth. apply (Hbefore (S i) l'); [lia | exact Hnth].
Qed.

(** C2, as the code has it.  The header is made of the lines in front of the
    first line in which one of the column names [ncalls], [tottime],
    [cumtime] occurs, each followed by a line feed: one name on a line is
    enough to end the header. *)
Theorem get_stats_header_stops_at_any_name (stats_str : string) :
  Stats.get_stats_header stats_str
  = concat_lines (lines_before Stats.search_header_line
                               (Py.splitlines false stats_str))
  /\ (forall line,
         Stats.search_header_line line = true
         <-> exists a b, line = a ++ "ncalls" ++ b \/ line = a ++ "tottime" ++ b
                         \/ line = a ++ "cumtime" ++ b).
Proof.
  split; [|apply search_header_line_spec].
  unfold Stats.get_stats_header. now rewrite header_loop_lines_before.
Qed.

(** C2, as the specification states it, fails: the line [ncalls only] holds one of the
    three names and ends the header. *)
Lemma get_stats_header_one_name_ends_header :
  let report := "summary" ++ Py.nl ++ "ncalls only" ++ Py.nl
                ++ "rest" ++ Py.nl in
  all_three "ncalls only" = false
  /\ lines_before all_three (Py.splitlines false report)
     = ["summary"; "ncalls only"; "rest"]
  /\ Stats.get_stats_header report = "summary" ++ Py.nl
  /\ Stats.get_stats_header report
     <> concat_lines (lines_before all_three (Py.splitlines false report)).
Proof.
  cbv zeta. repeat split; try reflexivity.
  vm_compute. discriminate.
Qed.

(** ** The rows: [iter_stats_table_row] *)

Lemma split_from_token (tok s : string) :
  tok <> "" -> Py.split_from tok s <> [].
Proof.
  revert tok; induction s as [|c t IH]; intros tok Htok; simpl.
  - destruct tok; [congruence | discriminate].
  - destruct (Py.isspace c).
    + destruct tok; [congruence | discriminate].
    + apply IH. destruct tok; discriminate.
Qed.

Lemma split_from_contains (p tok s : string) (c : ascii) (p' : string) :
  p = String c p' -> Py.isspace c = false ->
  Py.contains p s = true -> Py.split_from tok s <> [].
Proof.
  intros -> Hc. revert tok; induction s as [|a t IH]; intros tok Hin.
  - discriminate.
  - cbn [Py.contains] in Hin. apply orb_true_iff in Hin.
    destruct Hin as [Hstart | Hin].
    + simpl in Hstart. apply andb_true_iff in Hstart.
      destruct Hstart as [Hca _]. apply Ascii.eqb_eq in Hca. subst a.
      simpl. rewrite Hc. apply split_from_token. destruct tok; discriminate.
    + simpl. destruct (Py.isspace a).
      * destruct (Py.is_empty tok); [now apply IH | discriminate].
      * now apply IH.
Qed.

Lemma header_line_nonblank (line : string) :
  Stats.search_header_line line = true -> nonblank line = true.
Proof.
  unfold Stats.search_header_line, nonblank, Py.split. intros H.
  assert (Hne : Py.split_from "" line <> []).
  { apply orb_true_iff in H. destruct H as [H | H];
      [apply orb_true_iff in H; destruct H as [H | H]|];
      eapply split_from_contains; try exact H; reflexivity. }
  destruct (Py.split_from "" line); congruence.
Qed.

Lemma rows_loop_in_table (lines : list string) :
  Stats.rows_loop true lines = map row_of_line (filter nonblank lines).
Proof.
  induction lines as [|line rest IH]; [reflexivity|].
  cbn [Stats.rows_loop filter].
  replace (if Stats.search_header_line line then true else true) with true
    by (destruct (Stats.search_header_line line); reflexivity).
  rewrite IH.
  assert (Hrow : row_of_line line
                 = (firstn 5 (Py.split line)
                      ++ [Py.join " " (skipn 5 (Py.split line))])%list)
    by reflexivity.
  assert (Hnb : nonblank line
                = negb match Py.split line with [] => true | _ :: _ => false end)
    by (unfold nonblank; destruct (Py.split line); reflexivity).
  rewrite <- Hrow, <- Hnb.
  destruct (nonblank line); reflexivity.
Qed.

Lemma rows_loop_until_header (lines : list string) (k : nat) :
  first_header_at lines k ->
  Stats.rows_loop false lines = Stats.rows_loop true (skipn k lines).
Proof.
  revert k; induction lines as [|line rest IH]; intros k [(l & Hk & Hl) Hbefore].
  - destruct k; discriminate.
  - destruct k as [|k]; simpl in Hk.
    + injection Hk as ->. cbn [skipn Stats.rows_loop]. now rewrite Hl.
    + cbn [skipn Stats.rows_loop].
      rewrite (Hbefore 0 line) by (simpl; auto; lia). cbn [andb].
      apply IH. split; [now exists l|].
      intros i l' Hi Hnth. apply (Hbefore (S i) l'); [lia | exact Hnth].
Qed.

Lemma rows_loop_no_header (lines : list string) :
  (forall line, In line lines -> Stats.search_header_line line = false) ->
  Stats.rows_loop false lines = [].
Proof.
  induction lines as [|line rest IH]; intros H; [reflexivity|].
  cbn [Stats.rows_loop]. rewrite (H line) by now left.
  cbn [andb]. apply IH. intros l Hl. apply H. now right.
Qed.

Lemma first_header_spec (lines : list string) (k : nat) :
  first_header lines = Some k <-> first_header_at lines k.
Proof.
  revert k; induction lines as [|line rest IH]; intros k; simpl.
  - split; [discriminate | intros [(l & Hk & _) _]; destruct k; discriminate].
  - destruct (Stats.search_header_line line) eqn:Hline.
    + split.
      * intros [= <-]. split; [now exists line | intros i l Hi; lia].
      * intros [_ Hbefore]. destruct k as [|k]; [reflexivity|].
        specialize (Hbefore 0 line (Nat.lt_0_succ k) eq_refl). congruence.
    + split.
      * destruct (first_header rest) as [j|] eqn:Hrest; [|discriminate].
        intros [= <-]. destruct (proj1 (IH j) eq_refl) as [(l & Hj & Hl) Hbefore].
        split; [now exists l|].
        intros [|i] l' Hi Hnth; simpl in Hnth; [congruence|].
        apply (Hbefore i l'); [lia | exact Hnth].
      * intros [(l & Hk & Hl) Hbefore]. destruct k as [|k]; simpl in Hk.
        { congruence. }
        rewrite (proj2 (IH k)); [reflexivity|].
        split; [now exists l|].
        intros i l' Hi Hnth. apply (Hbefore (S i) l'); [lia | exact Hnth].
Qed.

(** C3, as the code has it.  When the header pattern first matches at line
    [k], the header is made of lines [0..k-1], each followed by a line feed,
    and the rows are those of the non-blank lines from line [k] on: the
    header line itself gives the first row. *)
Theorem header_and_rows_meet_at_header_line (stats_str : string) (k : nat) :
  first_header (Py.splitlines false stats_str) = Some k ->
  Stats.get_stats_header stats_str
  = concat_lines (firstn k (Py.splitlines false stats_str))
  /\ exists header rest,
      skipn k (Py.splitlines false stats_str) = header :: rest
      /\ nth_error (Py.splitlines false stats_str) k = Some header
      /\ Stats.iter_stats_table_row stats_str
         = row_of_line header :: map row_of_line (filter nonblank rest).
Proof.
  intros Hk. apply first_header_spec in Hk.
  unfold Stats.get_stats_header, Stats.iter_stats_table_row.
  set (lines := Py.splitlines false stats_str) in *.
  split.
  - rewrite header_loop_lines_before. simpl. now rewrite lines_before_first with (k := k).
  - rewrite (rows_loop_until_header lines k Hk), rows_loop_in_table.
    destruct Hk as [(header & Hnth & Hheader) _].
    destruct (nth_error_split lines k Hnth) as (front & rest & Hlines & Hlen).
    exists header, rest.
    assert (Hskip : skipn k lines = header :: rest).
    { rewrite Hlines, <- Hlen, skipn_app, Nat.sub_diag, skipn_all. reflexivity. }
    rewrite Hskip. cbn [filter].
    rewrite (header_line_nonblank header Hheader). auto.
Qed.

Lemma header_and_rows_meet_at_header_line_witness :
  let report := "3 calls" ++ Py.nl ++ "ncalls tottime cumtime" ++ Py.nl
                ++ "1 2 3 4 5 f" ++ Py.nl in
  first_header (Py.splitlines false report) = Some 1
  /\ Stats.get_stats_header report = "3 calls" ++ Py.nl
  /\ Stats.iter_stats_table_row report
     = [["ncalls"; "tottime"; "cumtime"; ""]; ["1"; "2"; "3"; "4"; "5"; "f"]].
Proof.
  cbv zeta.
  pose proof (header_and_rows_meet_at_header_line
                ("3 calls" ++ Py.nl ++ "ncalls tottime cumtime" ++ Py.nl
                 ++ "1 2 3 4 5 f" ++ Py.nl) 1 eq_refl) as [Hheader _].
  split; [reflexivity|]. split; [exact Hheader | reflexivity].
Defined.

(** C3, as the specification states it, fails: the header line is yielded as a row. *)
Lemma header_line_is_yielded_as_row :
  let report := "ncalls tottime cumtime" ++ Py.nl ++ "1 2 3 4 5 f" ++ Py.nl in
  first_header (Py.splitlines false report) = Some 0
  /\ Stats.iter_stats_table_row report
     = [["ncalls"; "tottime"; "cumtime"; ""]; ["1"; "2"; "3"; "4"; "5"; "f"]]
  /\ Stats.iter_stats_table_row report
     <> map row_of_line
            (filter nonblank (skipn 1 (Py.splitlines false report))).
Proof.
  cbv zeta. repeat split; try reflexivity.
  vm_compute. discriminate.
Qed.

Lemma rows_loop_In (in_table : bool) (lines : list string) (row : list string) :
  In row (Stats.rows_loop in_table lines) ->
  exists line, In line lines /\ Py.split line <> [] /\ row = row_of_line line.
Proof.
  revert in_table; induction lines as [|line rest IH]; intros in_table Hin.
  - contradiction.
  - cbn [Stats.rows_loop] in Hin.
    set (b := if Stats.search_header_line line then true else in_table) in Hin.
    destruct (Py.split line) as [|col cols] eqn:Hcols.
    + rewrite andb_false_r in Hin.
      destruct (IH b Hin) as (l & Hl & Hne & Hrow).
      exists l. split; [now right | now split].
    + destruct b; cbn [andb negb] in Hin.
      * destruct Hin as [<- | Hin].
        { exists line. split; [now left|]. split; [congruence|].
          unfold row_of_line. now rewrite Hcols. }
        destruct (IH true Hin) as (l & Hl & Hne & Hrow).
        exists l. split; [now right | now split].
      * destruct (IH false Hin) as (l & Hl & Hne & Hrow).
        exists l. split; [now right | now split].
Qed.

Lemma length_row_of_line (line : string) :
  List.length (row_of_line line)
  = S (Nat.min 5 (List.length (Py.split line))).
Proof.
  unfold row_of_line. rewrite length_app, length_firstn. simpl. lia.
Qed.

(** C5, as the code has it.  Every row comes from a line that has a token, and
    holds the first five tokens of the line (all of them when there are
    fewer) followed by the remaining tokens joined with single spaces: one
    field more than the tokens it keeps, six fields when the line has five
    tokens or more.  The line of the example gives the six fields the
    specification lists. *)
Theorem stat_row_fields (stats_str : string) (row : list string) :
  In row (Stats.iter_stats_table_row stats_str) ->
  (exists line,
      In line (Py.splitlines false stats_str)
      /\ Py.split line <> []
      /\ row = (firstn 5 (Py.split line)
                  ++ [Py.join " " (skipn 5 (Py.split line))])%list
      /\ List.length row = S (Nat.min 5 (List.length (Py.split line)))
      /\ (5 <= List.length (Py.split line) -> List.length row = 6))
  /\ row_of_line
       "12345    0.020    0.000    0.045    0.000 module.py:10(compute)"
     = ["12345"; "0.020"; "0.000"; "0.045"; "0.000"; "module.py:10(compute)"].
Proof.
  intros Hin. split; [|reflexivity].
  destruct (rows_loop_In _ _ _ Hin) as (line & Hline & Hne & ->).
  exists line. repeat split; auto.
  - apply length_row_of_line.
  - intros H5. rewrite length_row_of_line. lia.
Qed.

Lemma stat_row_fields_witness :
  let report :=
    "ncalls tottime cumtime" ++ Py.nl
    ++ "12345    0.020    0.000    0.045    0.000 module.py:10(compute)"
    ++ Py.nl in
  let row := ["12345"; "0.020"; "0.000"; "0.045"; "0.000";
              "module.py:10(compute)"] in
  In row (Stats.iter_stats_table_row report)
  /\ exists line,
      In line (Py.splitlines false report)
      /\ Py.split line <> []
      /\ row = (firstn 5 (Py.split line)
                  ++ [Py.join " " (skipn 5 (Py.split line))])%list
      /\ List.length row = S (Nat.min 5 (List.length (Py.split line)))
      /\ (5 <= List.length (Py.split line) -> List.length row = 6).
Proof.
  cbv zeta.
  assert (Hin : In ["12345"; "0.020"; "0.000"; "0.045"; "0.000";
                    "module.py:10(compute)"]
                   (Stats.iter_stats_table_row
                      ("ncalls tottime cumtime" ++ Py.nl
                       ++ "12345    0.020    0.000    0.045    0.000 module.py:10(compute)"
                       ++ Py.nl)))
    by (vm_compute; right; left; reflexivity).
  split; [exact Hin|].
  exact (proj1 (stat_row_fields _ _ Hin)).
Defined.

(** C5, as the specification states it, fails: a line of three tokens gives a row of
    four fields, the last one empty. *)
Lemma stat_row_of_three_tokens_has_four_fields :
  let report := "ncalls" ++ Py.nl ++ "a b c" ++ Py.nl in
  Stats.iter_stats_table_row report = [["ncalls"; ""]; ["a"; "b"; "c"; ""]]
  /\ exists row,
      In row (Stats.iter_stats_table_row report) /\ List.length row <> 6.
Proof.
  cbv zeta. split; [vm_compute; reflexivity|].
  exists ["a"; "b"; "c"; ""].
  split; [vm_compute; right; left; reflexivity | discriminate].
Qed.

(** Witnesses of the table theorems. *)
Lemma format_stats_table_short_table_raises_witness :
  let report := "         10 function calls in 0.001 seconds" ++ Py.nl ++ Py.nl in
  List.length (Stats.iter_stats_table_row report) <= 1
  /\ Stats.format_stats_table report = Py.Raise Py.IndexError.
Proof.
  cbv zeta.
  assert (Hlen : List.length
                   (Stats.iter_stats_table_row
                      ("         10 function calls in 0.001 seconds"
                       ++ Py.nl ++ Py.nl)) <= 1)
    by (vm_compute; lia).
  split; [exact Hlen|].
  exact (format_stats_table_short_table_raises _ Hlen).
Defined.

Lemma format_stats_table_rows_markup_witness :
  let report := "ncalls cumtime" ++ Py.nl ++ "1 f" ++ Py.nl ++ "2 g" ++ Py.nl in
  Stats.iter_stats_table_row report
  = [["ncalls"; "cumtime"; ""]; ["1"; "f"; ""]; ["2"; "g"; ""]]
  /\ Stats.format_stats_table report
     = Py.Ok ("<thead><tr><th>ncalls</th><th>cumtime</th><th></th></thead>"
              ++ Py.nl
              ++ "<tbody><tr><td>1</td><td>f</td><td></td>" ++ Py.nl
              ++ "<tr><td>2</td><td>g</td><td></td></tbody>").
Proof.
  cbv zeta. split; [reflexivity|].
  rewrite (format_stats_table_rows_markup
             ("ncalls cumtime" ++ Py.nl ++ "1 f" ++ Py.nl ++ "2 g" ++ Py.nl)
             ["ncalls"; "cumtime"; ""] ["1"; "f"; ""] [["2"; "g"; ""]] eq_refl).
  reflexivity.
Defined.

(** ** The query: [dict(bottle.request.query)] and [get_updated_href] *)

Lemma dict_get_set_same (d : list (string * string)) (key val : string) :
  Bottle.dict_get (Bottle.dict_set d key val) key = Some val.
Proof.
  induction d as [|[k v] d IH]; simpl.
  - now rewrite String.eqb_refl.
  - destruct (String.eqb k key) eqn:Hk; simpl; now rewrite Hk.
Qed.

Lemma dict_get_set_other (d : list (string * string)) (key val k : string) :
  k <> key ->
  Bottle.dict_get (Bottle.dict_set d key val) k = Bottle.dict_get d k.
Proof.
  intros Hk. induction d as [|[k0 v0] d IH]; simpl.
  - destruct (String.eqb_spec key k); congruence.
  - destruct (String.eqb_spec k0 key) as [-> | Hne]; simpl.
    + destruct (String.eqb_spec key k); congruence.
    + destruct (String.eqb_spec k0 k); [reflexivity | exact IH].
Qed.

Lemma dict_set_keys (d : list (string * string)) (key val : string) :
  map fst (Bottle.dict_set d key val)
  = if in_dec string_dec key (map fst d) then map fst d
    else (map fst d ++ [key])%list.
Proof.
  induction d as [|[k v] d IH]; [reflexivity|].
  simpl Bottle.dict_set. destruct (String.eqb_spec k key) as [-> | Hne].
  - simpl. destruct (string_dec key key); [reflexivity | congruence].
  - simpl map. rewrite IH. simpl in_dec.
    destruct (string_dec k key); [congruence|].
    destruct (in_dec string_dec key (map fst d)); reflexivity.
Qed.

Lemma dict_set_NoDup (d : list (string * string)) (key val : string) :
  NoDup (map fst d) -> NoDup (map fst (Bottle.dict_set d key val)).
Proof.
  intros Hd. rewrite dict_set_keys.
  destruct (in_dec string_dec key (map fst d)) as [Hin | Hout]; [exact Hd|].
  apply NoDup_app; [exact Hd | repeat constructor; intros [] | ].
  intros k Hk [<- | []]. contradiction.
Qed.

Lemma dict_set_key_kept (d : list (string * string)) (key val k : string) :
  In k (map fst d) -> In k (map fst (Bottle.dict_set d key val)).
Proof.
  intros Hk. rewrite dict_set_keys.
  destruct (in_dec string_dec key (map fst d)); [exact Hk|].
  apply in_or_app. now left.
Qed.

Lemma dict_set_key_in (d : list (string * string)) (key val : string) :
  In key (map fst (Bottle.dict_set d key val)).
Proof.
  rewrite dict_set_keys.
  destruct (in_dec string_dec key (map fst d)); [assumption|].
  apply in_or_app. right. now left.
Qed.

Lemma dict_get_In (d : list (string * string)) (k v : string) :
  Bottle.dict_get d k = Some v -> In (k, v) d.
Proof.
  induction d as [|[k0 v0] d IH]; simpl; [discriminate|].
  destruct (String.eqb_spec k0 k) as [-> | Hne].
  - intros [= ->]. now left.
  - intros H. right. now apply IH.
Qed.

Lemma In_dict_get (d : list (string * string)) (k v : string) :
  NoDup (map fst d) -> In (k, v) d -> Bottle.dict_get d k = Some v.
Proof.
  induction d as [|[k0 v0] d IH]; simpl; [contradiction|].
  intros Hd [[= -> ->] | Hin].
  - now rewrite String.eqb_refl.
  - inversion Hd as [|? ? Hout Hd']; subst.
    destruct (String.eqb_spec k0 k) as [-> | Hne]; [|now apply IH].
    exfalso. apply Hout. change k with (fst (k, v)). now apply in_map.
Qed.

Lemma to_dict_fold (q : Bottle.multidict) (d : list (string * string)) :
  NoDup (map fst d) ->
  let d' := fold_left (fun d kv => Bottle.dict_set d (fst kv) (snd kv)) q d in
  NoDup (map fst d')
  /\ (forall k, Bottle.dict_get d' k
                = match last_value q k with
                  | Some v => Some v
                  | None => Bottle.dict_get d k
                  end)
  /\ (forall k, In k (map fst q) \/ In k (map fst d) -> In k (map fst d')).
Proof.
  revert d; induction q as [|[k0 v0] q IH]; intros d Hd; cbn zeta.
  - simpl. repeat split; auto. intros k [[] | H]; exact H.
  - cbn [fold_left fst snd].
    destruct (IH (Bottle.dict_set d k0 v0) (dict_set_NoDup d k0 v0 Hd))
      as (Hnodup & Hget & Hkeys).
    split; [exact Hnodup|]. split.
    + intros k. rewrite Hget. cbn [last_value].
      destruct (last_value q k); [reflexivity|].
      destruct (String.eqb_spec k0 k) as [-> | Hne].
      * apply dict_get_set_same.
      * apply dict_get_set_other. congruence.
    + intros k [[<- | Hq] | Hin]; apply Hkeys.
      * right. apply dict_set_key_in.
      * now left.
      * right. now apply dict_set_key_kept.
Qed.

Lemma to_dict_NoDup (q : Bottle.multidict) : NoDup (map fst (Bottle.to_dict q)).
Proof. apply (to_dict_fold q []). constructor. Qed.

Lemma to_dict_get (q : Bottle.multidict) (k : string) :
  Bottle.dict_get (Bottle.to_dict q) k = last_value q k.
Proof.
  unfold Bottle.to_dict.
  rewrite (proj1 (proj2 (to_dict_fold q [] (NoDup_nil _)))).
  destruct (last_value q k); reflexivity.
Qed.

Lemma to_dict_keys (q : Bottle.multidict) (k : string) :
  In k (map fst q) -> In k (map fst (Bottle.to_dict q)).
Proof.
  intros Hk. apply (proj2 (proj2 (to_dict_fold q [] (NoDup_nil _)))). now left.
Qed.

Lemma drop_last_snoc (s : string) (c : ascii) :
  Py.drop_last (s ++ String c "") = s.
Proof.
  induction s as [|a s IH]; [reflexivity|].
  simpl. rewrite IH. destruct s; reflexivity.
Qed.

Lemma href_fold (d : list (string * string)) (href : string) :
  fold_left (fun href kv => href ++ (fst kv ++ "=" ++ snd kv ++ "&")) d href
  = href ++ String.concat "" (map (fun kv => pair_text kv ++ "&") d).
Proof.
  revert href; induction d as [|kv d IH]; intros href; cbn [fold_left map].
  - simpl. now rewrite append_empty_r.
  - rewrite IH. unfold pair_text at 2. destruct d as [|kv' d].
    + simpl. now rewrite !append_assoc, append_empty_r.
    + cbn [map String.concat]. now rewrite !append_assoc.
Qed.

Lemma concat_amp_join (l : list string) (x : string) :
  String.concat "" (map (fun s => s ++ "&") (x :: l))
  = Py.join "&" (x :: l) ++ "&".
Proof.
  revert x; induction l as [|y l IH]; intros x.
  - reflexivity.
  - change (String.concat "" (map (fun s => s ++ "&") (x :: y :: l)))
      with ((x ++ "&") ++ ""
            ++ String.concat "" (map (fun s => s ++ "&") (y :: l))).
    rewrite IH. unfold Py.join.
    change (String.concat "&" (x :: y :: l))
      with (x ++ "&" ++ String.concat "&" (y :: l)).
    simpl append at 2. now rewrite !append_assoc.
Qed.

Lemma get_updated_href_join (q : Bottle.multidict) (key val : string) :
  Stats.get_updated_href q key val
  = "?" ++ Py.join "&"
             (map pair_text (Bottle.dict_set (Bottle.to_dict q) key val)).
Proof.
  unfold Stats.get_updated_href. rewrite href_fold.
  destruct (Bottle.dict_set (Bottle.to_dict q) key val) as [|kv d] eqn:Hd.
  - destruct (Bottle.to_dict q) as [|[k v] d']; simpl in Hd;
      [discriminate | destruct (String.eqb k key); discriminate].
  - rewrite <- map_map with (f := pair_text) (g := fun s => s ++ "&").
    cbn [map].
    change ((pair_text kv ++ "&")
              :: map (fun s => s ++ "&") (map pair_text d))
      with (map (fun s => s ++ "&") (pair_text kv :: map pair_text d)).
    rewrite concat_amp_join.
    rewrite <- append_assoc.
    change "&" with (String "&"%char "") at 2.
    now rewrite drop_last_snoc.
Qed.

(** C7. The link starts with [?] and is made of the pairs [key=value] of the
    query with [key] set to [val], joined with [&]: every key occurs once,
    [key] with the value [val] (whatever it held before), any other key with
    the value the request gave it, and every key of the request is there. *)
Theorem get_updated_href_pairs (q : Bottle.multidict) (key val : string) :
  Stats.get_updated_href q key val
  = "?" ++ Py.join "&"
             (map pair_text (Bottle.dict_set (Bottle.to_dict q) key val))
  /\ NoDup (map fst (Bottle.dict_set (Bottle.to_dict q) key val))
  /\ In (key, val) (Bottle.dict_set (Bottle.to_dict q) key val)
  /\ (forall k v, In (k, v) (Bottle.dict_set (Bottle.to_dict q) key val) ->
                  k = key -> v = val)
  /\ (forall k v, k <> key ->
                  (In (k, v) (Bottle.dict_set (Bottle.to_dict q) key val)
                   <-> last_value q k = Some v))
  /\ (forall k v, In (k, v) q ->
                  In k (map fst (Bottle.dict_set (Bottle.to_dict q) key val))).
Proof.
  assert (Hnodup : NoDup (map fst (Bottle.dict_set (Bottle.to_dict q) key val)))
    by (apply dict_set_NoDup, to_dict_NoDup).
  split; [apply get_updated_href_join|].
  split; [exact Hnodup|].
  split; [apply dict_get_In, dict_get_set_same|].
  split.
  - intros k v Hin ->. apply (In_dict_get _ _ _ Hnodup) in Hin.
    rewrite dict_get_set_same in Hin. congruence.
  - split.
    + intros k v Hk. rewrite <- to_dict_get, <- (dict_get_set_other _ key val k Hk).
      split; [now apply In_dict_get | apply dict_get_In].
    + intros k v Hin. apply dict_set_key_kept, to_dict_keys.
      change k with (fst (k, v)). now apply in_map.
Qed.

(** ** The pattern of a statistics line *)

Lemma has_char_app (c : ascii) (a b : string) :
  has_char c (a ++ b) = has_char c a || has_char c b.
Proof.
  induction a as [|x a IH]; simpl; [reflexivity|].
  now rewrite IH, orb_assoc.
Qed.

Lemma search_stats_line_unfold (s : string) :
  Stats.search_stats_line s
  = match Stats.match_here s with
    | Some groups => Some groups
    | None => match s with
              | EmptyString => None
              | String _ t => Stats.search_stats_line t
              end
    end.
Proof. destruct s; reflexivity. Qed.

Lemma match_name_complete (name eol : string) :
  eol = "" \/ eol = Py.nl ->
  has_char Py.LF name = false ->
  Stats.match_name (name ++ ")" ++ eol) = Some name.
Proof.
  intros Heol. induction name as [|c name IH]; intros Hname.
  - destruct Heol as [-> | ->]; reflexivity.
  - simpl in Hname. apply orb_false_iff in Hname. destruct Hname as [Hc Hname].
    change ((String c name ++ ")" ++ eol))
      with (String c (name ++ ")" ++ eol)).
    cbn [Stats.match_name]. unfold Py.is_newline. rewrite Hc.
    now rewrite (IH Hname).
Qed.

Lemma match_here_no_paren (s : string) :
  has_char "("%char s = false -> Stats.match_here s = None.
Proof.
  induction s as [|c s IH]; [reflexivity|].
  simpl. intros H. apply orb_false_iff in H. destruct H as [Hc Hs].
  rewrite (IH Hs), Hc. destruct (Py.is_newline c); reflexivity.
Qed.

Lemma match_here_complete (prefix name eol : string) :
  eol = "" \/ eol = Py.nl ->
  has_char Py.LF prefix = false ->
  has_char Py.LF name = false ->
  has_char "("%char name = false ->
  Stats.match_here (prefix ++ "(" ++ name ++ ")" ++ eol) = Some (prefix, name).
Proof.
  intros Heol Hprefix Hname Hparen.
  induction prefix as [|c prefix IH].
  - change ("" ++ "(" ++ name ++ ")" ++ eol)
      with (String "("%char (name ++ ")" ++ eol)).
    cbn [Stats.match_here].
    rewrite match_here_no_paren.
    + rewrite (match_name_complete name eol Heol Hname). reflexivity.
    + rewrite has_char_app, Hparen.
      destruct Heol as [-> | ->]; reflexivity.
  - simpl in Hprefix. apply orb_false_iff in Hprefix.
    destruct Hprefix as [Hc Hprefix].
    change (String c prefix ++ "(" ++ name ++ ")" ++ eol)
      with (String c (prefix ++ "(" ++ name ++ ")" ++ eol)).
    cbn [Stats.match_here]. unfold Py.is_newline. rewrite Hc.
    now rewrite (IH Hprefix).
Qed.

(** A line of the shape  prefix ( name )  is matched, with these groups. *)
Lemma stats_line_search (line prefix name : string) :
  stats_line line prefix name ->
  Stats.search_stats_line line = Some (prefix, name).
Proof.
  intros (Hline & Hprefix & Hname & Hparen).
  assert (Hmatch : Stats.match_here line = Some (prefix, name)).
  { destruct Hline as [-> | ->].
    - rewrite <- (append_empty_r ")").
      apply match_here_complete; auto.
    - apply match_here_complete; auto. }
  now rewrite search_stats_line_unfold, Hmatch.
Qed.

Lemma match_name_sound (s name : string) :
  Stats.match_name s = Some name ->
  has_char Py.LF name = false
  /\ (s = name ++ ")" \/ s = name ++ ")" ++ Py.nl).
Proof.
  revert name; induction s as [|c t IH]; intros name; [discriminate|].
  cbn [Stats.match_name]. unfold Py.is_newline.
  destruct (Ascii.eqb c Py.LF) eqn:Hc.
  - destruct (Ascii.eqb c ")"%char) eqn:Hp; [|discriminate].
    apply Ascii.eqb_eq in Hc, Hp. subst c. discriminate.
  - destruct (Stats.match_name t) as [name'|] eqn:Ht.
    + intros [= <-]. destruct (IH name' eq_refl) as (Hlf & Hshape).
      split; [simpl; now rewrite Hc|].
      destruct Hshape as [-> | ->]; [left | right]; reflexivity.
    + destruct (Ascii.eqb c ")"%char) eqn:Hp; [|discriminate].
      apply Ascii.eqb_eq in Hp. subst c.
      destruct t as [|d [|e t']]; simpl; try discriminate.
      * intros [= <-]. split; [reflexivity | now left].
      * unfold Py.is_newline. destruct (Ascii.eqb d Py.LF) eqn:Hd;
          [|discriminate].
        apply Ascii.eqb_eq in Hd. subst d.
        intros [= <-]. split; [reflexivity | now right].
Qed.

Lemma match_here_sound (s prefix name : string) :
  Stats.match_here s = Some (prefix, name) ->
  has_char Py.LF prefix = false
  /\ has_char Py.LF name = false
  /\ (s = prefix ++ "(" ++ name ++ ")"
      \/ s = prefix ++ "(" ++ name ++ ")" ++ Py.nl).
Proof.
  revert prefix; induction s as [|c t IH]; intros prefix; [discriminate|].
  cbn [Stats.match_here]. unfold Py.is_newline.
  destruct (Ascii.eqb c Py.LF) eqn:Hc.
  - destruct (Ascii.eqb c "("%char) eqn:Hp; [|discriminate].
    apply Ascii.eqb_eq in Hc, Hp. subst c. discriminate.
  - destruct (Stats.match_here t) as [[prefix' name']|] eqn:Ht.
    + intros [= <- <-].
      destruct (IH prefix' eq_refl) as (Hlf & Hname & Hshape).
      split; [simpl; now rewrite Hc|]. split; [exact Hname|].
      destruct Hshape as [-> | ->]; [left | right]; reflexivity.
    + destruct (Ascii.eqb c "("%char) eqn:Hp; [|discriminate].
      apply Ascii.eqb_eq in Hp. subst c.
      destruct (Stats.match_name t) as [name'|] eqn:Hn; [|discriminate].
      intros [= <- <-]. destruct (match_name_sound t name' Hn) as (Hlf & Hshape).
      split; [reflexivity|]. split; [exact Hlf|].
      destruct Hshape as [-> | ->]; [left | right]; reflexivity.
Qed.

(** What a match means: the line ends with  prefix ( name ) , up to a final
    line feed, and neither group holds a line feed. *)
Lemma search_stats_line_sound (line prefix name : string) :
  Stats.search_stats_line line = Some (prefix, name) ->
  has_char Py.LF prefix = false
  /\ has_char Py.LF name = false
  /\ exists front,
      line = front ++ prefix ++ "(" ++ name ++ ")"
      \/ line = front ++ prefix ++ "(" ++ name ++ ")" ++ Py.nl.
Proof.
  induction line as [|c t IH]; [discriminate|].
  rewrite search_stats_line_unfold.
  destruct (Stats.match_here (String c t)) as [[p n]|] eqn:Hhere.
  - intros [= -> ->].
    destruct (match_here_sound _ _ _ Hhere) as (Hp & Hn & Hshape).
    split; [exact Hp|]. split; [exact Hn|]. now exists "".
  - intros Hrest. destruct (IH Hrest) as (Hp & Hn & front & Hshape).
    split; [exact Hp|]. split; [exact Hn|]. exists (String c front).
    destruct Hshape as [-> | ->]; [left | right]; reflexivity.
Qed.

(** ** The link rewriter: [process_line] *)

Lemma html_escape_app (a b : string) :
  Bottle.html_escape (a ++ b) = Bottle.html_escape a ++ Bottle.html_escape b.
Proof.
  induction a as [|c a IH]; simpl; [reflexivity|].
  now rewrite IH, append_assoc.
Qed.

Lemma html_escape_plain (s : string) :
  no_special s = true -> Bottle.html_escape s = s.
Proof.
  induction s as [|c s IH]; simpl; [reflexivity|].
  intros H. apply andb_true_iff in H. destruct H as [Hc Hs].
  rewrite (IH Hs). unfold is_special in Hc. apply negb_true_iff in Hc.
  repeat (apply orb_false_iff in Hc; destruct Hc as [Hc ?]).
  unfold Bottle.escape_char.
  repeat match goal with H : Ascii.eqb _ _ = false |- _ => rewrite H; clear H end.
  reflexivity.
Qed.

Lemma length_escape_char (c : ascii) :
  String.length (Bottle.escape_char c)
  = if is_special c then String.length (Bottle.escape_char c) else 1.
Proof.
  unfold is_special, Bottle.escape_char.
  destruct (Ascii.eqb c "&"%char), (Ascii.eqb c "<"%char),
    (Ascii.eqb c ">"%char), (Ascii.eqb c "034"%char), (Ascii.eqb c "'"%char);
    reflexivity.
Qed.

Lemma length_escape_special (c : ascii) :
  is_special c = true -> 1 < String.length (Bottle.escape_char c).
Proof.
  unfold is_special, Bottle.escape_char.
  destruct (Ascii.eqb c "&"%char), (Ascii.eqb c "<"%char),
    (Ascii.eqb c ">"%char), (Ascii.eqb c "034"%char), (Ascii.eqb c "'"%char);
    simpl; intros H; try discriminate; lia.
Qed.

Lemma length_html_escape (s : string) :
  String.length s <= String.length (Bottle.html_escape s)
  /\ (no_special s = false -> String.length s < String.length (Bottle.html_escape s)).
Proof.
  induction s as [|c s [IHle IHlt]]; simpl; [split; [lia | discriminate]|].
  rewrite length_append.
  destruct (is_special c) eqn:Hc.
  - pose proof (length_escape_special c Hc). split; [lia | intros _; lia].
  - rewrite length_escape_char, Hc. simpl. split; [lia|].
    intros H. specialize (IHlt H). lia.
Qed.

Lemma html_escape_fixed (s : string) :
  Bottle.html_escape s = s <-> no_special s = true.
Proof.
  split; [|apply html_escape_plain].
  intros H. destruct (no_special s) eqn:Hs; [reflexivity|].
  pose proof (proj2 (length_html_escape s) Hs) as Hlt.
  rewrite H in Hlt. lia.
Qed.

Lemma str_in_ignore (name : string) :
  Py.str_in name Stats.IGNORE_FUNC_NAMES = false
  <-> name <> "function" /\ name <> "".
Proof.
  unfold Py.str_in, Stats.IGNORE_FUNC_NAMES. simpl existsb.
  rewrite orb_false_r, orb_false_iff.
  split.
  - intros [H1 H2]. split; intros ->; discriminate.
  - intros [H1 H2]. split.
    + destruct (String.eqb_spec name "function"); congruence.
    + destruct (String.eqb_spec name ""); congruence.
Qed.

Lemma process_line_match (q : Bottle.multidict) (line prefix name : string) :
  Stats.search_stats_line line = Some (prefix, name) ->
  Py.str_in name Stats.IGNORE_FUNC_NAMES = false ->
  Stats.process_line q line
  = Bottle.html_escape prefix ++ "("
    ++ ("<a href='"
        ++ Bottle.html_escape
             (Stats.get_updated_href q Stats.FUNC_NAME_KEY name)
        ++ "'>" ++ Bottle.html_escape name ++ "</a>")
    ++ ")" ++ Py.nl.
Proof.
  intros Hsearch Hname. unfold Stats.process_line.
  rewrite Hsearch, Hname. cbn [negb].
  generalize (Stats.get_updated_href q Stats.FUNC_NAME_KEY name) as href.
  intros href.
  unfold Bottle.template, Stats.link_template, Stats.line_template.
  cbn [Bottle.render_lines Bottle.render_segments Bottle.render_segment
       forallb].
  assert (Hurl : forall u f, Bottle.lookup [("url", u); ("func_name", f)] "url" = u)
    by reflexivity.
  assert (Hfn : forall u f,
             Bottle.lookup [("url", u); ("func_name", f)] "func_name" = f)
    by reflexivity.
  assert (Hpre : forall p l,
             Bottle.lookup [("prefix", p); ("url_link", l)] "prefix" = p)
    by reflexivity.
  assert (Hlink : forall p l,
             Bottle.lookup [("prefix", p); ("url_link", l)] "url_link" = l)
    by reflexivity.
  rewrite Hpre, Hlink, Hurl, Hfn.
  rewrite !append_empty_r, !append_assoc. reflexivity.
Qed.

Lemma contains_intro (p a b : string) : Py.contains p (a ++ p ++ b) = true.
Proof. apply contains_spec. now exists a, b. Qed.

Lemma join_In (sep x : string) (l : list string) :
  In x l -> exists a b, Py.join sep l = a ++ x ++ b.
Proof.
  unfold Py.join. induction l as [|y l IH]; [contradiction|].
  intros [-> | Hin].
  - destruct l as [|z l].
    + exists "", "". simpl. now rewrite append_empty_r.
    + exists "", (sep ++ String.concat sep (z :: l)). reflexivity.
  - destruct (IH Hin) as (a & b & Hab).
    destruct l as [|z l]; [contradiction|].
    exists (y ++ sep ++ a), b.
    change (String.concat sep (y :: z :: l))
      with (y ++ sep ++ String.concat sep (z :: l)).
    rewrite Hab. now rewrite !append_assoc.
Qed.

Lemma get_updated_href_contains (q : Bottle.multidict) (key val : string) :
  exists a b,
    Stats.get_updated_href q key val = a ++ (key ++ "=" ++ val) ++ b.
Proof.
  rewrite get_updated_href_join.
  destruct (join_In "&" (pair_text (key, val))
                    (map pair_text (Bottle.dict_set (Bottle.to_dict q) key val)))
    as (a & b & Hab).
  { apply in_map, dict_get_In, dict_get_set_same. }
  exists ("?" ++ a), b. rewrite Hab. unfold pair_text. simpl fst. simpl snd.
  now rewrite !append_assoc.
Qed.

(** C8. A line in which the pattern finds no match, or finds the name
    [function] or the empty name, is returned as it is. *)
Theorem process_line_identity (q : Bottle.multidict) (line : string) :
  Stats.search_stats_line line = None
  \/ (exists prefix, Stats.search_stats_line line = Some (prefix, "function"))
  \/ (exists prefix, Stats.search_stats_line line = Some (prefix, "")) ->
  Stats.process_line q line = line.
Proof.
  unfold Stats.process_line.
  intros [-> | [(prefix & ->) | (prefix & ->)]]; reflexivity.
Qed.

Lemma process_line_identity_witness :
  let header :=
    "   ncalls  tottime  percall  cumtime  percall filename:lineno(function)"
    ++ Py.nl in
  Stats.process_line [("sort", "time")] header = header
  /\ Stats.process_line [] "   Ordered by: cumulative time"
     = "   Ordered by: cumulative time"
  /\ Stats.process_line [] "lambda x: f()" = "lambda x: f()".
Proof.
  cbv zeta. split; [|split].
  - apply process_line_identity. right. left.
    exists "   ncalls  tottime  percall  cumtime  percall filename:lineno".
    vm_compute. reflexivity.
  - apply process_line_identity. left. vm_compute. reflexivity.
  - apply process_line_identity. right. right.
    exists "lambda x: f". vm_compute. reflexivity.
Defined.

(** ** The capture stream: [read_stream] and the reports of a request *)

Lemma take_length_app (b s : string) :
  StringIO.take (String.length b) (b ++ s) = b.
Proof. induction b as [|c b IH]; simpl; [now destruct s | now rewrite IH]. Qed.

Lemma skip_past_end (n : nat) (b : string) :
  String.length b <= n -> StringIO.skip n b = "".
Proof.
  revert n; induction b as [|c b IH]; intros [|n] H; simpl in *;
    try reflexivity; try lia.
  apply IH. lia.
Qed.

(** Writing at the end of the text appends. *)
Lemma write_at_end (b s : string) :
  StringIO.write (StringIO.mk b (String.length b)) s
  = StringIO.mk (b ++ s) (String.length (b ++ s)).
Proof.
  unfold StringIO.write. cbn [StringIO.buf StringIO.pos].
  rewrite Nat.sub_diag. cbn [StringIO.zeros]. rewrite append_empty_r.
  rewrite <- (append_empty_r b) at 2. rewrite take_length_app.
  rewrite skip_past_end by lia.
  now rewrite append_empty_r, length_append.
Qed.

Lemma write_all_at_end (texts : list string) (b : string) :
  fold_left StringIO.write texts (StringIO.mk b (String.length b))
  = StringIO.mk (b ++ written texts) (String.length (b ++ written texts)).
Proof.
  revert b; induction texts as [|text texts IH]; intros b; cbn [fold_left written].
  - now rewrite append_empty_r.
  - rewrite write_at_end, IH, append_assoc. reflexivity.
Qed.

(** Every read returns the whole text of the stream and leaves it empty. *)
Lemma read_stream_drains (self : Stats.t) :
  Stats.read_stream self
  = (StringIO.getvalue (Stats.stream self),
     Stats.mk (Stats.stats self) StringIO.empty).
Proof.
  unfold Stats.read_stream, StringIO.truncate, StringIO.seek, StringIO.empty.
  cbn [StringIO.buf StringIO.pos]. destruct (StringIO.buf (Stats.stream self));
    reflexivity.
Qed.

Lemma read_after_write (q : Bottle.multidict) (backend : pstats)
      (texts : list string) :
  Stats.read q (Stats.write_all (Stats.mk backend StringIO.empty) texts)
  = (linked q (written texts), Stats.mk backend StringIO.empty).
Proof.
  unfold Stats.read. rewrite read_stream_drains.
  unfold Stats.write_all. cbn [Stats.stream Stats.stats].
  change StringIO.empty with (StringIO.mk "" (String.length "")).
  rewrite write_all_at_end. reflexivity.
Qed.

(** C9. Every read of the stream returns all of its text and leaves it
    empty.  In a request the stream is empty after the callers, the callees
    and the aggregate report have been read, and each of the three texts is
    made of what the backend wrote for that report alone. *)
Theorem capture_stream_drained (self : CProfileV.t) (q : Bottle.multidict) :
  (forall stats : Stats.t,
      Stats.read_stream stats
      = (StringIO.getvalue (Stats.stream stats),
         Stats.mk (Stats.stats stats) StringIO.empty))
  /\ Stats.stream (CProfileV.after_callers (CProfileV.read_reports self q))
     = StringIO.empty
  /\ Stats.stream (CProfileV.after_callees (CProfileV.read_reports self q))
     = StringIO.empty
  /\ Stats.stream (CProfileV.after_stats (CProfileV.read_reports self q))
     = StringIO.empty
  /\ CProfileV.callers (CProfileV.read_reports self q)
     = (if Py.truthy (CProfileV.requested_func_name q)
        then linked q (written (print_callers (CProfileV.profile self)
                                              (CProfileV.requested_func_name q)))
        else "")
  /\ CProfileV.callees (CProfileV.read_reports self q)
     = (if Py.truthy (CProfileV.requested_func_name q)
        then linked q (written (print_callees (CProfileV.profile self)
                                              (CProfileV.requested_func_name q)))
        else "")
  /\ CProfileV.stats_str (CProfileV.read_reports self q)
     = linked q (written (print_stats (CProfileV.profile self)
                                      (CProfileV.requested_func_name q))).
Proof.
  split; [apply read_stream_drains|].
  unfold CProfileV.read_reports, Stats.show, Stats.show_callers,
    Stats.show_callees, Stats.init.
  destruct (Py.truthy (CProfileV.requested_func_name q));
    cbn [Stats.stats]; rewrite ?read_after_write; cbn [Stats.stats];
    rewrite ?read_after_write; cbn [Stats.stats]; rewrite ?read_after_write;
    cbn [CProfileV.callers CProfileV.callees CProfileV.stats_str
         CProfileV.after_callers CProfileV.after_callees CProfileV.after_stats
         Stats.stream];
    repeat split.
Qed.

(** ** The page: STATS_TEMPLATE *)

Lemma render_text_lines (e : Bottle.env) (blocks : list bool)
      (ls rest : list Bottle.tline) :
  Forall (fun l => exists segs, l = Bottle.Text segs) ls ->
  Bottle.render_lines e blocks (ls ++ rest)
  = (if forallb (fun b => b) blocks then Bottle.render_lines e [] ls else "")
    ++ Bottle.render_lines e blocks rest.
Proof.
  induction 1 as [|l ls (segs & ->) _ IH]; cbn [app Bottle.render_lines].
  - destruct (forallb (fun b => b) blocks); reflexivity.
  - rewrite IH. cbn [forallb].
    destruct (forallb (fun b => b) blocks); [|reflexivity].
    now rewrite append_assoc.
Qed.

Lemma text_lines_page_head :
  Forall (fun l => exists segs, l = Bottle.Text segs) CProfileV.page_head.
Proof.
  unfold CProfileV.page_head, CProfileV.stylesheet, CProfileV.script,
    CProfileV.T.
  repeat (constructor; [eexists; reflexivity|]). constructor.
Qed.

Lemma text_lines_called_by :
  Forall (fun l => exists segs, l = Bottle.Text segs) CProfileV.called_by_lines.
Proof.
  unfold CProfileV.called_by_lines, CProfileV.T.
  repeat (constructor; [eexists; reflexivity|]). constructor.
Qed.

Lemma text_lines_called_and_close :
  Forall (fun l => exists segs, l = Bottle.Text segs)
         (CProfileV.called_lines ++ CProfileV.page_close)%list.
Proof.
  unfold CProfileV.called_lines, CProfileV.page_close, CProfileV.T.
  repeat (constructor; [eexists; reflexivity|]). constructor.
Qed.

(** The page, block by block: the second [% if] lies inside the first, and
    the closing lines of the page inside the second. *)
Lemma page_sections (e : Bottle.env) :
  Bottle.template CProfileV.STATS_TEMPLATE e
  = Bottle.render_lines e [] CProfileV.page_head
    ++ (if Py.truthy (Bottle.lookup e "callers")
        then Bottle.render_lines e [] CProfileV.called_by_lines
             ++ (if Py.truthy (Bottle.lookup e "callees")
                 then Bottle.render_lines e []
                        (CProfileV.called_lines ++ CProfileV.page_close)%list
                 else "")
        else "").
Proof.
  unfold Bottle.template, CProfileV.STATS_TEMPLATE.
  rewrite (render_text_lines e [] _ _ text_lines_page_head).
  cbn [forallb app Bottle.render_lines]. f_equal.
  rewrite (render_text_lines e _ _ _ text_lines_called_by).
  cbn [forallb app Bottle.render_lines].
  rewrite <- (app_nil_r (CProfileV.called_lines ++ CProfileV.page_close)%list)
    at 1.
  rewrite (render_text_lines e _ _ _ text_lines_called_and_close).
  cbn [forallb Bottle.render_lines].
  destruct (Py.truthy (Bottle.lookup e "callers")),
    (Py.truthy (Bottle.lookup e "callees")); cbn [andb];
    rewrite ?append_empty_r; reflexivity.
Qed.

Lemma get_updated_href_pairs_witness :
  Stats.get_updated_href [("a", "1"); ("func_name", "old"); ("b", "2")]
                         "func_name" "foo"
  = "?a=1&func_name=foo&b=2"
  /\ last_value [("a", "1"); ("func_name", "old"); ("b", "2")] "a" = Some "1".
Proof.
  rewrite (proj1 (get_updated_href_pairs
                    [("a", "1"); ("func_name", "old"); ("b", "2")]
                    "func_name" "foo")).
  split; vm_compute; reflexivity.
Defined.

(** ** Lines: [splitlines] *)

Lemma concat_empty_sep (x : string) (l : list string) :
  String.concat "" (x :: l) = x ++ String.concat "" l.
Proof. destruct l; simpl; [now rewrite append_empty_r | reflexivity]. Qed.

Lemma has_char_concat (c : ascii) (l : list string) :
  has_char c (String.concat "" l) = existsb (has_char c) l.
Proof.
  induction l as [|x l IH]; [reflexivity|].
  rewrite concat_empty_sep, has_char_app, IH. reflexivity.
Qed.

Lemma all_chars_app (p : ascii -> bool) (a b : string) :
  all_chars p (a ++ b) = all_chars p a && all_chars p b.
Proof.
  induction a as [|c a IH]; simpl; [reflexivity|].
  now rewrite IH, andb_assoc.
Qed.

(** Joining the lines kept with their ends gives the text back. *)
Lemma splitlines_from_keepends (n : nat) (s line : string) :
  String.length s <= n ->
  Py.join "" (Py.splitlines_from true line s) = line ++ s.
Proof.
  unfold Py.join. revert s line; induction n as [|n IH]; intros s line Hlen.
  - destruct s; [|simpl in Hlen; lia]. simpl.
    destruct line; simpl; [reflexivity | now rewrite append_empty_r].
  - destruct s as [|c t].
    + simpl. destruct line; simpl; [reflexivity | now rewrite append_empty_r].
    + simpl in Hlen. cbn [Py.splitlines_from].
      destruct (Py.is_cr c).
      * destruct t as [|d t'].
        { simpl. reflexivity. }
        simpl in Hlen. destruct (Py.is_newline d).
        { rewrite concat_empty_sep, IH by lia.
          now rewrite append_assoc. }
        rewrite concat_empty_sep, IH by (simpl; lia).
        now rewrite append_assoc.
      * destruct (Py.is_line_boundary c).
        { rewrite concat_empty_sep, IH by lia. now rewrite append_assoc. }
        rewrite IH by lia. now rewrite append_assoc.
Qed.

Lemma splitlines_keepends (s : string) :
  Py.join "" (Py.splitlines true s) = s.
Proof. exact (splitlines_from_keepends (String.length s) s "" (le_n _)). Qed.

(** A line kept with its end is not empty. *)
Lemma splitlines_from_nonempty (n : nat) (s line : string) :
  String.length s <= n ->
  Forall (fun l => l <> "") (Py.splitlines_from true line s).
Proof.
  assert (Hsnoc : forall (a : string) (c : ascii) (b : string),
             a ++ String c b <> "")
    by (intros [|x a] c b; discriminate).
  revert s line; induction n as [|n IH]; intros s line Hlen.
  - destruct s; [|simpl in Hlen; lia]. simpl.
    destruct line; simpl; constructor; [discriminate | constructor].
  - destruct s as [|c t].
    + simpl. destruct line; simpl; constructor; [discriminate | constructor].
    + simpl in Hlen. cbn [Py.splitlines_from].
      destruct (Py.is_cr c).
      * destruct t as [|d t'].
        { constructor; [apply Hsnoc | constructor]. }
        simpl in Hlen. destruct (Py.is_newline d);
          (constructor; [apply Hsnoc | apply IH; simpl; lia]).
      * destruct (Py.is_line_boundary c).
        { constructor; [apply Hsnoc | apply IH; lia]. }
        apply IH. lia.
Qed.

(** A line given without its end holds no character that ends a line. *)
Lemma splitlines_from_no_boundary (n : nat) (s line : string) :
  String.length s <= n ->
  all_chars (fun c => negb (Py.is_line_boundary c)) line = true ->
  Forall (fun l => all_chars (fun c => negb (Py.is_line_boundary c)) l = true)
         (Py.splitlines_from false line s).
Proof.
  revert s line; induction n as [|n IH]; intros s line Hlen Hline.
  - destruct s; [|simpl in Hlen; lia]. simpl.
    destruct line; simpl; constructor; [exact Hline | constructor].
  - destruct s as [|c t].
    + simpl. destruct line; simpl; constructor; [exact Hline | constructor].
    + simpl in Hlen. cbn [Py.splitlines_from].
      destruct (Py.is_cr c).
      * destruct t as [|d t'].
        { constructor; [exact Hline | constructor]. }
        simpl in Hlen. destruct (Py.is_newline d);
          (constructor; [exact Hline | apply IH; [simpl; lia | reflexivity]]).
      * destruct (Py.is_line_boundary c) eqn:Hc.
        { constructor; [exact Hline | apply IH; [lia | reflexivity]]. }
        apply IH; [lia|]. rewrite all_chars_app, Hline. simpl. now rewrite Hc.
Qed.

Lemma splitlines_no_boundary (s : string) :
  Forall (fun l => all_chars (fun c => negb (Py.is_line_boundary c)) l = true)
         (Py.splitlines false s).
Proof.
  exact (splitlines_from_no_boundary (String.length s) s "" (le_n _) eq_refl).
Qed.

(** ** More on [read] *)

Lemma all_chars_weaken (p p' : ascii -> bool) (s : string) :
  (forall c, p c = true -> p' c = true) ->
  all_chars p s = true -> all_chars p' s = true.
Proof.
  intros Hpp'. induction s as [|c s IH]; simpl; [reflexivity|].
  intros H. apply andb_true_iff in H. destruct H as [Hc Hs].
  now rewrite (Hpp' c Hc), (IH Hs).
Qed.

Lemma append_not_empty (a : string) (c : ascii) (b : string) :
  a ++ String c b <> "".
Proof. destruct a; discriminate. Qed.

Lemma read_linked (q : Bottle.multidict) (self : Stats.t) :
  Stats.read q self
  = (linked q (StringIO.getvalue (Stats.stream self)),
     Stats.mk (Stats.stats self) StringIO.empty).
Proof. unfold Stats.read. now rewrite read_stream_drains. Qed.

Lemma process_line_no_paren (q : Bottle.multidict) (line : string) :
  has_char ")"%char line = false -> Stats.process_line q line = line.
Proof.
  intros Hline. unfold Stats.process_line.
  destruct (Stats.search_stats_line line) as [[prefix name]|] eqn:Hsearch;
    [|reflexivity].
  exfalso.
  destruct (search_stats_line_sound _ _ _ Hsearch) as (_ & _ & front & Hshape).
  assert (Hparen : forall eol,
             has_char ")"%char (front ++ prefix ++ "(" ++ name ++ ")" ++ eol)
             = true).
  { intros eol. rewrite !has_char_app. simpl has_char at 4.
    rewrite !orb_true_r. reflexivity. }
  destruct Hshape as [-> | ->].
  - rewrite <- (append_empty_r ")") in Hline. rewrite Hparen in Hline.
    discriminate.
  - rewrite Hparen in Hline. discriminate.
Qed.

Lemma process_line_not_empty (q : Bottle.multidict) (line : string) :
  line <> "" -> Stats.process_line q line <> "".
Proof.
  intros Hline.
  destruct (Stats.search_stats_line line) as [[prefix name]|] eqn:Hsearch.
  - destruct (Py.str_in name Stats.IGNORE_FUNC_NAMES) eqn:Hname.
    + unfold Stats.process_line. now rewrite Hsearch, Hname.
    + rewrite (process_line_match q line prefix name Hsearch Hname).
      apply append_not_empty.
  - unfold Stats.process_line. now rewrite Hsearch.
Qed.

Lemma linked_empty (q : Bottle.multidict) (text : string) :
  linked q text = "" <-> text = "".
Proof.
  split; [|intros ->; reflexivity].
  unfold linked. intros Hlinked.
  pose proof (splitlines_from_nonempty (String.length text) text ""
                                       (le_n _)) as Hlines.
  rewrite <- (splitlines_keepends text).
  change (Py.splitlines_from true "" text) with (Py.splitlines true text)
    in Hlines.
  destruct (Py.splitlines true text) as [|line lines]; [reflexivity|].
  exfalso. inversion Hlines as [|? ? Hline _]; subst.
  unfold Py.join in Hlinked. cbn [map] in Hlinked.
  rewrite concat_empty_sep in Hlinked.
  apply (process_line_not_empty q line Hline).
  destruct (Stats.process_line q line); [reflexivity | discriminate].
Qed.

(** X1. A text of the backend without a closing parenthesis goes through
    [read] as it is: every line is kept, with the line end it had. *)
Theorem read_keeps_text_without_parenthesis
        (q : Bottle.multidict) (self : Stats.t) :
  has_char ")"%char (StringIO.getvalue (Stats.stream self)) = false ->
  fst (Stats.read q self) = StringIO.getvalue (Stats.stream self).
Proof.
  rewrite read_linked. cbn [fst].
  generalize (StringIO.getvalue (Stats.stream self)) as text. intros text Htext.
  unfold linked.
  rewrite <- (splitlines_keepends text) in Htext.
  unfold Py.join in Htext. rewrite has_char_concat in Htext.
  rewrite <- (splitlines_keepends text) at 2.
  f_equal. rewrite <- (map_id (Py.splitlines true text)) at 2.
  apply map_ext_in. intros line Hin. apply process_line_no_paren.
  destruct (has_char ")"%char line) eqn:Hline; [|reflexivity].
  assert (Hex : existsb (has_char ")"%char) (Py.splitlines true text) = true)
    by (apply existsb_exists; now exists line).
  congruence.
Qed.

Lemma read_keeps_text_without_parenthesis_witness :
  let text := "   Ordered by: cumulative time" ++ String CR Py.nl
              ++ "   3 function calls" ++ Py.nl in
  let self := Stats.write_all (Stats.init (Build_pstats (fun _ => [])
                                                        (fun _ => [])
                                                        (fun _ => [])))
                              [text] in
  has_char ")"%char (StringIO.getvalue (Stats.stream self)) = false
  /\ fst (Stats.read [] self) = text.
Proof.
  cbv zeta. split; [vm_compute; reflexivity|].
  rewrite read_keeps_text_without_parenthesis; vm_compute; reflexivity.
Defined.

(** X2. [read] returns the empty string exactly when the stream holds no
    text: a report the backend wrote something for is never lost, and an
    empty one never gains text. *)
Theorem read_empty_iff_stream_empty (q : Bottle.multidict) (self : Stats.t) :
  fst (Stats.read q self) = ""
  <-> StringIO.getvalue (Stats.stream self) = "".
Proof. rewrite read_linked. cbn [fst]. apply linked_empty. Qed.

(** ** Tokens and fields *)

Lemma split_from_tokens (tok s : string) :
  all_chars (fun c => negb (Py.isspace c)) tok = true ->
  Forall (fun t => is_token t = true) (Py.split_from tok s).
Proof.
  revert tok; induction s as [|c t IH]; intros tok Htok; cbn [Py.split_from].
  - destruct tok; cbn [Py.is_empty]; constructor; [|constructor].
    unfold is_token. now rewrite Htok.
  - destruct (Py.isspace c) eqn:Hc.
    + destruct tok; cbn [Py.is_empty]; [now apply IH|].
      constructor; [|now apply IH].
      unfold is_token. now rewrite Htok.
    + apply IH. rewrite all_chars_app, Htok. simpl. now rewrite Hc.
Qed.

Lemma split_tokens (s : string) :
  Forall (fun t => is_token t = true) (Py.split s).
Proof. now apply split_from_tokens. Qed.

Lemma token_field_chars (t : string) :
  is_token t = true -> all_chars field_char t = true.
Proof.
  unfold is_token. intros H. apply andb_true_iff in H. destruct H as [_ H].
  revert H. apply all_chars_weaken. intros c Hc. unfold field_char.
  now rewrite Hc.
Qed.

Lemma join_space_field_chars (l : list string) :
  Forall (fun t => is_token t = true) l ->
  all_chars field_char (Py.join " " l) = true.
Proof.
  unfold Py.join. induction 1 as [|x l Hx Hl IH]; [reflexivity|].
  destruct l as [|y l]; [now apply token_field_chars|].
  change (String.concat " " (x :: y :: l))
    with (x ++ " " ++ String.concat " " (y :: l)).
  rewrite !all_chars_app, (token_field_chars x Hx), IH. reflexivity.
Qed.

(** X3. Every row is made of one to five tokens, each of them not empty and
    free of whitespace, followed by one last field in which the only
    whitespace is the single space: only the last column can hold a
    space. *)
Theorem stat_row_tokens (stats_str : string) (row : list string) :
  In row (Stats.iter_stats_table_row stats_str) ->
  exists fields last,
    row = (fields ++ [last])%list
    /\ 1 <= List.length fields <= 5
    /\ Forall (fun f => is_token f = true) fields
    /\ all_chars field_char last = true.
Proof.
  intros Hin.
  destruct (rows_loop_In _ _ _ Hin) as (line & _ & Hne & ->).
  pose proof (split_tokens line) as Htokens.
  rewrite <- (firstn_skipn 5 (Py.split line)) in Htokens.
  apply Forall_app in Htokens. destruct Htokens as [Hfirst Hrest].
  exists (firstn 5 (Py.split line)), (Py.join " " (skipn 5 (Py.split line))).
  split; [reflexivity|]. split.
  - rewrite length_firstn. destruct (Py.split line); [congruence|].
    simpl List.length. lia.
  - split; [exact Hfirst | now apply join_space_field_chars].
Qed.

Lemma stat_row_tokens_witness :
  let report := "ncalls tottime" ++ Py.nl
                ++ "1 0.1 0.1 0.2 0.2 {built-in method builtins.exec}"
                ++ Py.nl in
  let row := ["1"; "0.1"; "0.1"; "0.2"; "0.2";
              "{built-in method builtins.exec}"] in
  In row (Stats.iter_stats_table_row report)
  /\ exists fields last,
      row = (fields ++ [last])%list
      /\ 1 <= List.length fields <= 5
      /\ Forall (fun f => is_token f = true) fields
      /\ all_chars field_char last = true.
Proof.
  cbv zeta.
  assert (Hin : In ["1"; "0.1"; "0.1"; "0.2"; "0.2";
                    "{built-in method builtins.exec}"]
                   (Stats.iter_stats_table_row
                      ("ncalls tottime" ++ Py.nl
                       ++ "1 0.1 0.1 0.2 0.2 {built-in method builtins.exec}"
                       ++ Py.nl)))
    by (vm_compute; right; left; reflexivity).
  split; [exact Hin | exact (stat_row_tokens _ _ Hin)].
Defined.

(** ** More on the header *)

Lemma lines_before_Forall (P : string -> Prop) (stop : string -> bool)
      (lines : list string) :
  Forall P lines -> Forall P (lines_before stop lines).
Proof.
  induction 1 as [|line lines Hline _ IH]; simpl; [constructor|].
  destruct (stop line); constructor; assumption.
Qed.

Lemma concat_lines_header_chars (lines : list string) :
  Forall (fun l => all_chars (fun c => negb (Py.is_line_boundary c)) l = true)
         lines ->
  all_chars header_char (concat_lines lines) = true.
Proof.
  induction 1 as [|line lines Hline _ IH]; [reflexivity|].
  cbn [concat_lines]. rewrite !all_chars_app, IH.
  rewrite (all_chars_weaken (fun c => negb (Py.is_line_boundary c))
                            header_char line); [reflexivity | | exact Hline].
  intros c Hc. unfold header_char. now rewrite Hc.
Qed.

(** X4. In the header every line ends with a line feed and with nothing
    else: whatever ends the lines of the report (a carriage return, a form
    feed, ...), the header holds no such character but the line feed. *)
Theorem get_stats_header_line_feeds_only (stats_str : string) :
  all_chars header_char (Stats.get_stats_header stats_str) = true.
Proof.
  unfold Stats.get_stats_header. rewrite header_loop_lines_before.
  cbn [append]. apply concat_lines_header_chars, lines_before_Forall.
  apply splitlines_no_boundary.
Qed.

(** ** More on the table *)

Lemma format_stats_table_two_rows
      (stats_str : string) (row0 row1 : list string)
      (rows : list (list string)) :
  Stats.iter_stats_table_row stats_str = row0 :: row1 :: rows ->
  exists out, Stats.format_stats_table stats_str = Py.Ok out.
Proof.
  intros Hrows. unfold Stats.format_stats_table.
  rewrite Hrows, table_rows_cons. simpl map.
  set (m0 := row_markup "th" row0). set (m1 := row_markup "td" row1).
  set (ms := map (row_markup "td") rows).
  change 0%Z with (Z.of_nat 0). change 1%Z with (Z.of_nat 1).
  rewrite (getitem_nat _ 0 m0) by reflexivity. cbn [Py.bind].
  rewrite setitem_nat by (simpl; lia). cbn [Py.bind Py.set_nth].
  rewrite (getitem_nat _ 1 m1) by reflexivity. cbn [Py.bind].
  rewrite setitem_nat by (simpl; lia). cbn [Py.bind Py.set_nth].
  set (h0 := "<thead>" ++ m0 ++ "</thead>"). set (h1 := "<tbody>" ++ m1).
  destruct (last_case ms) as [-> | (init & z & ->)].
  - change [h0; h1] with ([h0] ++ [h1])%list.
    rewrite getitem_last. cbn [Py.bind]. rewrite setitem_last.
    eexists. reflexivity.
  - change (h0 :: h1 :: (init ++ [z]))%list with ((h0 :: h1 :: init) ++ [z])%list.
    rewrite getitem_last. cbn [Py.bind]. rewrite setitem_last.
    eexists. reflexivity.
Qed.

Lemma format_stats_table_short (stats_str : string) :
  List.length (Stats.iter_stats_table_row stats_str) < 2 ->
  Stats.format_stats_table stats_str = Py.Raise Py.IndexError.
Proof.
  intros Hlen. unfold Stats.format_stats_table.
  destruct (Stats.iter_stats_table_row stats_str) as [|row [|row' rows]].
  - reflexivity.
  - rewrite table_rows_cons. reflexivity.
  - simpl in Hlen. lia.
Qed.

(** X5. [format_stats_table] raises [IndexError] exactly when the report
    gives fewer than two rows; with two rows or more it returns a table. *)
Theorem format_stats_table_raises_iff (stats_str : string) :
  (Stats.format_stats_table stats_str = Py.Raise Py.IndexError
   <-> List.length (Stats.iter_stats_table_row stats_str) < 2)
  /\ ((exists out, Stats.format_stats_table stats_str = Py.Ok out)
      <-> 2 <= List.length (Stats.iter_stats_table_row stats_str)).
Proof.
  destruct (Stats.iter_stats_table_row stats_str) as [|row0 [|row1 rows]] eqn:Hrows.
  - assert (H : Stats.format_stats_table stats_str = Py.Raise Py.IndexError)
      by (apply format_stats_table_short; rewrite Hrows; simpl; lia).
    rewrite H. simpl. split; split; try lia; auto.
    intros (out & Hout). discriminate.
  - assert (H : Stats.format_stats_table stats_str = Py.Raise Py.IndexError)
      by (apply format_stats_table_short; rewrite Hrows; simpl; lia).
    rewrite H. simpl. split; split; try lia; auto.
    intros (out & Hout). discriminate.
  - destruct (format_stats_table_two_rows _ _ _ _ Hrows) as (out & Hout).
    rewrite Hout. simpl. split; split; try lia; try discriminate.
    intros _. now exists out.
Qed.

Lemma first_header_none (lines : list string) :
  first_header lines = None ->
  forall line, In line lines -> Stats.search_header_line line = false.
Proof.
  induction lines as [|l lines IH]; simpl; [contradiction|].
  destruct (Stats.search_header_line l) eqn:Hl; [discriminate|].
  destruct (first_header lines); [discriminate|].
  intros _ line [<- | Hin]; [exact Hl | now apply IH].
Qed.

Lemma lines_before_none (stop : string -> bool) (lines : list string) :
  (forall line, In line lines -> stop line = false) ->
  lines_before stop lines = lines.
Proof.
  induction lines as [|l lines IH]; intros H; simpl; [reflexivity|].
  rewrite (H l) by now left. f_equal. apply IH. intros line Hin.
  apply H. now right.
Qed.

(** X6. A report in which no line holds one of the column names is all
    header: [get_stats_header] returns every line of it, each followed by a
    line feed, [iter_stats_table_row] yields no row, and
    [format_stats_table] raises [IndexError]. *)
Theorem report_without_header_line (stats_str : string) :
  first_header (Py.splitlines false stats_str) = None ->
  Stats.get_stats_header stats_str
  = concat_lines (Py.splitlines false stats_str)
  /\ Stats.iter_stats_table_row stats_str = []
  /\ Stats.format_stats_table stats_str = Py.Raise Py.IndexError.
Proof.
  intros Hnone. pose proof (first_header_none _ Hnone) as Hlines.
  assert (Hrows : Stats.iter_stats_table_row stats_str = [])
    by (apply rows_loop_no_header; exact Hlines).
  split; [|split; [exact Hrows|]].
  - unfold Stats.get_stats_header.
    rewrite header_loop_lines_before, lines_before_none by exact Hlines.
    reflexivity.
  - apply format_stats_table_short. rewrite Hrows. simpl. lia.
Qed.

Lemma report_without_header_line_witness :
  let report := "         10 function calls in 0.001 seconds"
                ++ String CR Py.nl ++ Py.nl in
  first_header (Py.splitlines false report) = None
  /\ Stats.get_stats_header report
     = "         10 function calls in 0.001 seconds" ++ Py.nl ++ Py.nl
  /\ Stats.format_stats_table report = Py.Raise Py.IndexError.
Proof.
  cbv zeta.
  assert (Hnone : first_header
                    (Py.splitlines false
                       ("         10 function calls in 0.001 seconds"
                        ++ String CR Py.nl ++ Py.nl)) = None)
    by (vm_compute; reflexivity).
  destruct (report_without_header_line _ Hnone) as (Hheader & _ & Htable).
  split; [exact Hnone|]. split; [|exact Htable].
  rewrite Hheader. vm_compute. reflexivity.
Defined.

(** ** More on the pattern of a statistics line *)

Lemma match_name_then_here (s name : string) :
  Stats.match_name s = Some name ->
  has_char "("%char name = true ->
  Stats.match_here s <> None.
Proof.
  revert name; induction s as [|c t IH]; intros name; [discriminate|].
  cbn [Stats.match_name Stats.match_here].
  destruct (Py.is_newline c).
  - destruct (Ascii.eqb c ")"%char && Stats.at_dollar t); [|discriminate].
    intros [= <-] H. simpl in H. discriminate H.
  - destruct (Stats.match_name t) as [name'|] eqn:Hname.
    + intros [= <-]. cbn [has_char]. intros Hparen.
      destruct (Stats.match_here t) as [[p n]|] eqn:Hhere; [discriminate|].
      destruct (has_char "("%char name') eqn:Hname'.
      * exfalso. exact (IH name' eq_refl Hname' eq_refl).
      * rewrite orb_false_r in Hparen. rewrite Hparen. discriminate.
    + destruct (Ascii.eqb c ")"%char && Stats.at_dollar t); [|discriminate].
      intros [= <-] H. simpl in H. discriminate H.
Qed.

Lemma match_here_last_group (s prefix name : string) :
  Stats.match_here s = Some (prefix, name) -> has_char "("%char name = false.
Proof.
  revert prefix; induction s as [|c t IH]; intros prefix; [discriminate|].
  cbn [Stats.match_here]. unfold Py.is_newline.
  destruct (Ascii.eqb c Py.LF) eqn:Hc.
  - apply Ascii.eqb_eq in Hc. subst c. simpl. discriminate.
  - destruct (Stats.match_here t) as [[p n]|] eqn:Hhere.
    + intros [= <- <-]. now apply (IH p).
    + destruct (Ascii.eqb c "("%char); [|discriminate].
      destruct (Stats.match_name t) as [n|] eqn:Hn; [|discriminate].
      intros [= <- <-].
      destruct (has_char "("%char n) eqn:Hparen; [|reflexivity].
      exfalso. now apply (match_name_then_here t n Hn Hparen).
Qed.

Lemma search_stats_line_last_group (line prefix name : string) :
  Stats.search_stats_line line = Some (prefix, name) ->
  has_char "("%char name = false
  /\ exists front,
      (front = "" \/ has_char Py.LF front = true)
      /\ (line = front ++ prefix ++ "(" ++ name ++ ")"
          \/ line = front ++ prefix ++ "(" ++ name ++ ")" ++ Py.nl).
Proof.
  induction line as [|c t IH]; [discriminate|].
  rewrite search_stats_line_unfold.
  destruct (Stats.match_here (String c t)) as [[p n]|] eqn:Hhere.
  - intros [= -> ->]. split; [exact (match_here_last_group _ _ _ Hhere)|].
    exists "". split; [now left|].
    exact (proj2 (proj2 (match_here_sound _ _ _ Hhere))).
  - intros Hrest. destruct (IH Hrest) as (Hparen & front & Hfront & Hshape).
    split; [exact Hparen|]. exists (String c front). split.
    + right. cbn [has_char].
      destruct (Ascii.eqb c Py.LF) eqn:Hc; [reflexivity|].
      destruct Hfront as [-> | ->]; [|reflexivity].
      exfalso.
      destruct (search_stats_line_sound _ _ _ Hrest) as (Hp & Hn & _).
      assert (Hcp : has_char Py.LF (String c prefix) = false)
        by (cbn [has_char]; now rewrite Hc, Hp).
      destruct Hshape as [-> | ->].
      * pose proof (match_here_complete (String c prefix) name ""
                                        (or_introl eq_refl) Hcp Hn Hparen)
          as Hmatch.
        rewrite append_empty_r in Hmatch.
        change (String c ("" ++ prefix ++ "(" ++ name ++ ")"))
          with (String c prefix ++ "(" ++ name ++ ")") in Hhere.
        congruence.
      * pose proof (match_here_complete (String c prefix) name Py.nl
                                        (or_intror eq_refl) Hcp Hn Hparen)
          as Hmatch.
        change (String c ("" ++ prefix ++ "(" ++ name ++ ")" ++ Py.nl))
          with (String c prefix ++ "(" ++ name ++ ")" ++ Py.nl) in Hhere.
        congruence.
    + destruct Hshape as [-> | ->]; [left | right]; reflexivity.
Qed.

(** X7. What the pattern finds.  The name is the last parenthesised group
    of the line: it follows the last opening parenthesis, so it holds none
    itself, and it ends at a closing parenthesis that ends the text, up to
    one final line feed.  Neither group holds a line feed; text in front of
    the prefix is there only when the text holds earlier lines. *)
Theorem search_stats_line_groups (line prefix name : string) :
  Stats.search_stats_line line = Some (prefix, name) ->
  has_char "("%char name = false
  /\ has_char Py.LF prefix = false
  /\ has_char Py.LF name = false
  /\ exists front,
      (front = "" \/ has_char Py.LF front = true)
      /\ (line = front ++ prefix ++ "(" ++ name ++ ")"
          \/ line = front ++ prefix ++ "(" ++ name ++ ")" ++ Py.nl).
Proof.
  intros Hsearch.
  destruct (search_stats_line_last_group _ _ _ Hsearch) as (Hparen & Hfront).
  destruct (search_stats_line_sound _ _ _ Hsearch) as (Hp & Hn & _).
  auto.
Qed.

Lemma search_stats_line_groups_witness :
  let line := "  1  0.0 a.py:3(f) -> b.py:9(g(h))" ++ Py.nl in
  Stats.search_stats_line line = Some ("  1  0.0 a.py:3(f) -> b.py:9(g", "h)")
  /\ has_char "("%char "h)" = false.
Proof.
  cbv zeta.
  assert (Hsearch :
            Stats.search_stats_line
              ("  1  0.0 a.py:3(f) -> b.py:9(g(h))" ++ Py.nl)
            = Some ("  1  0.0 a.py:3(f) -> b.py:9(g", "h)"))
    by (vm_compute; reflexivity).
  split; [exact Hsearch|].
  exact (proj1 (search_stats_line_groups _ _ _ Hsearch)).
Defined.

Lemma append_snoc_inj (a b : string) (c d : ascii) :
  a ++ String c "" = b ++ String d "" -> a = b /\ c = d.
Proof.
  revert b; induction a as [|x a IH]; intros [|y b] H; simpl in H.
  - injection H as ->. auto.
  - injection H as -> H. symmetry in H. now apply append_not_empty in H.
  - injection H as -> H. now apply append_not_empty in H.
  - injection H as -> H. destruct (IH b H) as [-> ->]. auto.
Qed.

(** X8. A line that ends with a carriage return and a line feed is never
    rewritten: [$] stands only at the end of the text or before the line
    feed that ends it, and the closing parenthesis is not there. *)
Theorem process_line_keeps_crlf_line (q : Bottle.multidict) (body : string) :
  Stats.process_line q (body ++ String CR Py.nl) = body ++ String CR Py.nl.
Proof.
  unfold Stats.process_line.
  destruct (Stats.search_stats_line (body ++ String CR Py.nl))
    as [[prefix name]|] eqn:Hsearch; [|reflexivity].
  exfalso.
  destruct (search_stats_line_sound _ _ _ Hsearch) as (_ & _ & front & Hshape).
  assert (Hline : body ++ String CR Py.nl
                  = (body ++ String CR "") ++ String Py.LF "")
    by (now rewrite append_assoc).
  rewrite Hline in Hshape. destruct Hshape as [H | H].
  - assert (Hr : front ++ prefix ++ "(" ++ name ++ ")"
                 = (front ++ prefix ++ "(" ++ name) ++ String ")"%char "")
      by (now rewrite !append_assoc).
    rewrite Hr in H. apply append_snoc_inj in H. destruct H as [_ H].
    discriminate H.
  - assert (Hr : front ++ prefix ++ "(" ++ name ++ ")" ++ Py.nl
                 = ((front ++ prefix ++ "(" ++ name) ++ String ")"%char "")
                     ++ String Py.LF "")
      by (now rewrite !append_assoc).
    rewrite Hr in H. apply append_snoc_inj in H. destruct H as [H _].
    apply append_snoc_inj in H. destruct H as [_ H]. discriminate H.
Qed.

(** ** Escaping *)

Lemma escape_char_no_markup (c : ascii) :
  all_chars (fun c => negb (is_markup c)) (Bottle.escape_char c) = true.
Proof.
  unfold Bottle.escape_char.
  destruct (Ascii.eqb c "&"%char) eqn:Hamp; [reflexivity|].
  destruct (Ascii.eqb c "<"%char) eqn:Hlt; [reflexivity|].
  destruct (Ascii.eqb c ">"%char) eqn:Hgt; [reflexivity|].
  destruct (Ascii.eqb c "034"%char) eqn:Hdq; [reflexivity|].
  destruct (Ascii.eqb c "'"%char) eqn:Hsq; [reflexivity|].
  cbn [all_chars]. unfold is_markup. now rewrite Hlt, Hgt, Hdq, Hsq.
Qed.

Lemma html_escape_no_markup (s : string) :
  all_chars (fun c => negb (is_markup c)) (Bottle.html_escape s) = true.
Proof.
  induction s as [|c s IH]; [reflexivity|].
  cbn [Bottle.html_escape]. now rewrite all_chars_app, escape_char_no_markup, IH.
Qed.

Lemma unescape_escape_char (c : ascii) (rest : string) :
  unescape_from 0 (Bottle.escape_char c ++ rest)
  = String c (unescape_from 0 rest).
Proof.
  unfold Bottle.escape_char.
  destruct (Ascii.eqb c "&"%char) eqn:Hamp;
    [apply Ascii.eqb_eq in Hamp; subst c; reflexivity|].
  destruct (Ascii.eqb c "<"%char) eqn:Hlt;
    [apply Ascii.eqb_eq in Hlt; subst c; reflexivity|].
  destruct (Ascii.eqb c ">"%char) eqn:Hgt;
    [apply Ascii.eqb_eq in Hgt; subst c; reflexivity|].
  destruct (Ascii.eqb c "034"%char) eqn:Hdq;
    [apply Ascii.eqb_eq in Hdq; subst c; reflexivity|].
  destruct (Ascii.eqb c "'"%char) eqn:Hsq;
    [apply Ascii.eqb_eq in Hsq; subst c; reflexivity|].
  cbn [append unescape_from Py.startswith].
  rewrite (Ascii.eqb_sym "&"%char c), Hamp. reflexivity.
Qed.

(** Decoding gives back the text that was escaped. *)
Lemma html_unescape_escape (s : string) :
  html_unescape (Bottle.html_escape s) = s.
Proof.
  unfold html_unescape. induction s as [|c s IH]; [reflexivity|].
  cbn [Bottle.html_escape]. now rewrite unescape_escape_char, IH.
Qed.

(** C6. When the pattern finds the groups [prefix] and [name] in a line and
    [name] is neither [function] nor empty, the line becomes the prefix,
    an opening parenthesis, an anchor, a closing parenthesis and a line
    feed.  The label and the [href] value of the anchor are written
    HTML-escaped and hold no angle bracket and no quote, so they are the
    text and the attribute value of the anchor as a browser reads it; the
    label shown is [name] exactly (and it is written as [name] itself
    exactly when [name] holds no character that is escaped), the target is
    the link of [get_updated_href]: [?] and the pairs of the current query
    with [func_name] set to [name], so it holds [func_name=name]. *)
Theorem process_line_links_name
        (q : Bottle.multidict) (line prefix name : string) :
  Stats.search_stats_line line = Some (prefix, name) ->
  name <> "function" -> name <> "" ->
  let link := Stats.get_updated_href q Stats.FUNC_NAME_KEY name in
  let href := Bottle.html_escape link in
  let label := Bottle.html_escape name in
  Stats.process_line q line
  = Bottle.html_escape prefix ++ "("
    ++ ("<a href='" ++ href ++ "'>" ++ label ++ "</a>")
    ++ ")" ++ Py.nl
  /\ all_chars (fun c => negb (is_markup c)) href = true
  /\ all_chars (fun c => negb (is_markup c)) label = true
  /\ html_unescape label = name
  /\ html_unescape href = link
  /\ html_unescape (Bottle.html_escape prefix) = prefix
  /\ link = "?" ++ Py.join "&"
                     (map pair_text
                          (Bottle.dict_set (Bottle.to_dict q)
                                           Stats.FUNC_NAME_KEY name))
  /\ Py.contains ("func_name=" ++ name) link = true
  /\ Py.contains ("func_name=" ++ label) href = true
  /\ (label = name <-> no_special name = true).
Proof.
  intros Hsearch Hfunction Hempty. cbv zeta.
  split; [apply process_line_match; [exact Hsearch | now apply str_in_ignore]|].
  split; [apply html_escape_no_markup|].
  split; [apply html_escape_no_markup|].
  split; [apply html_unescape_escape|].
  split; [apply html_unescape_escape|].
  split; [apply html_unescape_escape|].
  split; [apply get_updated_href_join|].
  destruct (get_updated_href_contains q Stats.FUNC_NAME_KEY name)
    as (a & b & Hab).
  split; [rewrite Hab; apply contains_intro|].
  split; [|apply html_escape_fixed].
  rewrite Hab, !html_escape_app.
  change (Bottle.html_escape Stats.FUNC_NAME_KEY) with "func_name".
  change (Bottle.html_escape "=") with "=".
  change ("func_name" ++ "=" ++ Bottle.html_escape name)
    with ("func_name=" ++ Bottle.html_escape name).
  apply contains_intro.
Qed.

Lemma process_line_links_name_witness :
  let line := "    1    0.000 f.py:1(<module>)" ++ Py.nl in
  let q := [("sort", "time")] in
  Stats.search_stats_line line = Some ("    1    0.000 f.py:1", "<module>")
  /\ Stats.process_line q line
     = "    1    0.000 f.py:1(<a href='?sort=time&amp;func_name=&lt;module&gt;'>&lt;module&gt;</a>)"
       ++ Py.nl
  /\ html_unescape "&lt;module&gt;" = "<module>"
  /\ html_unescape "?sort=time&amp;func_name=&lt;module&gt;"
     = "?sort=time&func_name=<module>".
Proof.
  cbv zeta.
  assert (Hsearch :
            Stats.search_stats_line
              ("    1    0.000 f.py:1(<module>)" ++ Py.nl)
            = Some ("    1    0.000 f.py:1", "<module>"))
    by (vm_compute; reflexivity).
  split; [exact Hsearch|].
  destruct (process_line_links_name
              [("sort", "time")] _ _ _ Hsearch
              ltac:(discriminate) ltac:(discriminate))
    as (Hline & _ & _ & Hlabel & Hhref & _).
  split; [rewrite Hline; vm_compute; reflexivity|].
  split; [exact Hlabel | exact Hhref].
Defined.

(** X9. In a rewritten line the angle brackets and the quotes are those of
    the anchor alone: the prefix, the link and the label, which come from
    the report and from the request, hold none of them. *)
Theorem process_line_markup_is_the_anchor
        (q : Bottle.multidict) (line prefix name : string) :
  Stats.search_stats_line line = Some (prefix, name) ->
  name <> "function" -> name <> "" ->
  exists p href label,
    Stats.process_line q line
    = p ++ "(" ++ ("<a href='" ++ href ++ "'>" ++ label ++ "</a>")
        ++ ")" ++ Py.nl
    /\ all_chars (fun c => negb (is_markup c)) p = true
    /\ all_chars (fun c => negb (is_markup c)) href = true
    /\ all_chars (fun c => negb (is_markup c)) label = true.
Proof.
  intros Hsearch Hfunction Hempty.
  exists (Bottle.html_escape prefix),
    (Bottle.html_escape (Stats.get_updated_href q Stats.FUNC_NAME_KEY name)),
    (Bottle.html_escape name).
  split; [|repeat split; apply html_escape_no_markup].
  apply process_line_match; [exact Hsearch | now apply str_in_ignore].
Qed.

Lemma process_line_markup_is_the_anchor_witness :
  let line := "<string>:1(<lambda>)" ++ Py.nl in
  Stats.search_stats_line line = Some ("<string>:1", "<lambda>")
  /\ exists p href label,
      Stats.process_line [("sort", "'x'")] line
      = p ++ "(" ++ ("<a href='" ++ href ++ "'>" ++ label ++ "</a>")
          ++ ")" ++ Py.nl
      /\ all_chars (fun c => negb (is_markup c)) p = true
      /\ all_chars (fun c => negb (is_markup c)) href = true
      /\ all_chars (fun c => negb (is_markup c)) label = true.
Proof.
  cbv zeta.
  assert (Hsearch : Stats.search_stats_line ("<string>:1(<lambda>)" ++ Py.nl)
                    = Some ("<string>:1", "<lambda>"))
    by (vm_compute; reflexivity).
  split; [exact Hsearch|].
  apply (process_line_markup_is_the_anchor _ _ _ _ Hsearch); discriminate.
Defined.

(** ** More on the request: [route_handler] *)

Lemma requested_func_name_last (q : Bottle.multidict) :
  CProfileV.requested_func_name q
  = match last_value q Stats.FUNC_NAME_KEY with
    | Some v => v
    | None => ""
    end.
Proof.
  unfold CProfileV.requested_func_name, Bottle.query_get.
  rewrite to_dict_get.
  destruct (last_value q Stats.FUNC_NAME_KEY) as [[|c v]|]; reflexivity.
Qed.

Lemma read_reports_eq (self : CProfileV.t) (q : Bottle.multidict) :
  CProfileV.read_reports self q
  = CProfileV.mk_reports
      (if Py.truthy (CProfileV.requested_func_name q)
       then linked q (written (print_callers (CProfileV.profile self)
                                             (CProfileV.requested_func_name q)))
       else "")
      (Stats.mk (CProfileV.profile self) StringIO.empty)
      (if Py.truthy (CProfileV.requested_func_name q)
       then linked q (written (print_callees (CProfileV.profile self)
                                             (CProfileV.requested_func_name q)))
       else "")
      (Stats.mk (CProfileV.profile self) StringIO.empty)
      (linked q (written (print_stats (CProfileV.profile self)
                                      (CProfileV.requested_func_name q))))
      (Stats.mk (CProfileV.profile self) StringIO.empty).
Proof.
  unfold CProfileV.read_reports, Stats.show, Stats.show_callers,
    Stats.show_callees, Stats.init.
  destruct (Py.truthy (CProfileV.requested_func_name q));
    cbn [Stats.stats]; rewrite ?read_after_write; cbn [Stats.stats];
    rewrite ?read_after_write; cbn [Stats.stats]; rewrite ?read_after_write;
    reflexivity.
Qed.

Lemma route_handler_env (self : CProfileV.t) (q : Bottle.multidict) :
  CProfileV.route_handler self q
  = Py.bind (Stats.format_stats_table
               (CProfileV.stats_str (CProfileV.read_reports self q)))
            (fun table =>
               Py.Ok (Bottle.template CProfileV.STATS_TEMPLATE
                                      (page_env self q table))).
Proof. reflexivity. Qed.

Ltac flatten_appends :=
  repeat (progress (cbn [Bottle.render_lines Bottle.render_segments
                         Bottle.render_segment forallb append
                         CProfileV.page_head CProfileV.T CProfileV.stylesheet
                         CProfileV.script CProfileV.dq CProfileV.cdn Py.nl]
                    || rewrite append_assoc)).






(** X10. A request without focus asks the backend for the aggregate report
    alone, with the empty restriction: callers and callees are empty, and
    the page, when the table can be made, is the part of the template in
    front of the first [% if] line, without the closing lines. *)
Theorem route_handler_without_focus (self : CProfileV.t) (q : Bottle.multidict) :
  last_value q Stats.FUNC_NAME_KEY = None
  \/ last_value q Stats.FUNC_NAME_KEY = Some "" ->
  CProfileV.callers (CProfileV.read_reports self q) = ""
  /\ CProfileV.callees (CProfileV.read_reports self q) = ""
  /\ CProfileV.stats_str (CProfileV.read_reports self q)
     = linked q (written (print_stats (CProfileV.profile self) ""))
  /\ CProfileV.route_handler self q
     = Py.bind (Stats.format_stats_table
                  (linked q (written (print_stats (CProfileV.profile self) ""))))
               (fun table =>
                  Py.Ok (Bottle.render_lines (page_env self q table) []
                                             CProfileV.page_head)).
Proof.
  intros Hfocus.
  assert (Hname : CProfileV.requested_func_name q = "")
    by (rewrite requested_func_name_last; destruct Hfocus as [-> | ->];
        reflexivity).
  assert (Hreports := read_reports_eq self q). rewrite Hname in Hreports.
  cbn [Py.truthy Py.is_empty negb] in Hreports.
  assert (Hcallers : CProfileV.callers (CProfileV.read_reports self q) = "")
    by (now rewrite Hreports).
  split; [exact Hcallers|].
  split; [now rewrite Hreports|]. split; [now rewrite Hreports|].
  rewrite route_handler_env.
  replace (CProfileV.stats_str (CProfileV.read_reports self q))
    with (linked q (written (print_stats (CProfileV.profile self) "")))
    by (now rewrite Hreports).
  destruct (Stats.format_stats_table
              (linked q (written (print_stats (CProfileV.profile self) ""))))
    as [table|e]; [|reflexivity].
  cbn [Py.bind]. rewrite page_sections.
  change (Bottle.lookup (page_env self q table) "callers")
    with (CProfileV.callers (CProfileV.read_reports self q)).
  rewrite Hcallers. cbn [Py.truthy Py.is_empty negb].
  now rewrite append_empty_r.
Qed.

Lemma route_handler_without_focus_witness :
  let report := "ncalls tottime" ++ Py.nl ++ "1 0.1 m.py:1(foo)" ++ Py.nl in
  let self := CProfileV.mk (Build_pstats (fun _ => [report])
                                         (fun _ => ["never read"])
                                         (fun _ => ["never read"])) "m.py" in
  let q := [("sort", "time"); ("func_name", "")] in
  (last_value q Stats.FUNC_NAME_KEY = None
   \/ last_value q Stats.FUNC_NAME_KEY = Some "")
  /\ CProfileV.callers (CProfileV.read_reports self q) = ""
  /\ CProfileV.callees (CProfileV.read_reports self q) = "".
Proof.
  cbv zeta.
  assert (Hfocus :
            last_value [("sort", "time"); ("func_name", "")]
                       Stats.FUNC_NAME_KEY = None
            \/ last_value [("sort", "time"); ("func_name", "")]
                          Stats.FUNC_NAME_KEY = Some "")
    by (right; reflexivity).
  split; [exact Hfocus|].
  destruct (route_handler_without_focus
              (CProfileV.mk (Build_pstats
                               (fun _ => ["ncalls tottime" ++ Py.nl
                                          ++ "1 0.1 m.py:1(foo)" ++ Py.nl])
                               (fun _ => ["never read"])
                               (fun _ => ["never read"])) "m.py")
              _ Hfocus) as (Hcallers & Hcallees & _).
  split; [exact Hcallers | exact Hcallees].
Defined.

(** X11. When the table can be made, the page is the head of the template,
    then, when the callers text is not empty, the [Called By:] section,
    then, inside it, when the callees text is not empty as well, the
    [Called:] section and the closing lines of the page. *)
Theorem route_handler_page
        (self : CProfileV.t) (q : Bottle.multidict) (table : string) :
  Stats.format_stats_table
    (CProfileV.stats_str (CProfileV.read_reports self q)) = Py.Ok table ->
  CProfileV.route_handler self q
  = Py.Ok
      (Bottle.render_lines (page_env self q table) [] CProfileV.page_head
       ++ (if Py.truthy (CProfileV.callers (CProfileV.read_reports self q))
           then Bottle.render_lines (page_env self q table) []
                                    CProfileV.called_by_lines
                ++ (if Py.truthy
                         (CProfileV.callees (CProfileV.read_reports self q))
                    then Bottle.render_lines
                           (page_env self q table) []
                           (CProfileV.called_lines ++ CProfileV.page_close)%list
                    else "")
           else "")).
Proof.
  intros Htable. rewrite route_handler_env, Htable. cbn [Py.bind].
  now rewrite page_sections.
Qed.

Lemma route_handler_page_witness :
  let report := "ncalls tottime" ++ Py.nl ++ "1 0.1 m.py:1(foo)" ++ Py.nl in
  let self := CProfileV.mk (Build_pstats (fun _ => [report])
                                         (fun _ => ["m.py:9(main)"; Py.nl])
                                         (fun _ => ["m.py:2(bar)"; Py.nl]))
                           "m.py" in
  let q := [("func_name", "foo")] in
  exists table page,
    Stats.format_stats_table
      (CProfileV.stats_str (CProfileV.read_reports self q)) = Py.Ok table
    /\ CProfileV.route_handler self q = Py.Ok page
    /\ Py.contains "<h2>Called By:</h2>" page = true
    /\ Py.contains "<h2>Called:</h2>" page = true
    /\ Py.contains "</html>" page = true.
Proof.
  cbv zeta. eexists. eexists.
  split; [vm_compute; reflexivity|].
  split; [apply route_handler_page; vm_compute; reflexivity|].
  repeat split; vm_compute; reflexivity.
Defined.

(** X12. A request fails with [IndexError] exactly when the aggregate text
    read from the stream gives fewer than two rows; otherwise it returns a
    page. *)
Theorem route_handler_raises_iff (self : CProfileV.t) (q : Bottle.multidict) :
  (CProfileV.route_handler self q = Py.Raise Py.IndexError
   <-> List.length
         (Stats.iter_stats_table_row
            (CProfileV.stats_str (CProfileV.read_reports self q))) < 2)
  /\ ((exists page, CProfileV.route_handler self q = Py.Ok page)
      <-> 2 <= List.length
                 (Stats.iter_stats_table_row
                    (CProfileV.stats_str (CProfileV.read_reports self q)))).
Proof.
  rewrite route_handler_env.
  destruct (Stats.iter_stats_table_row
              (CProfileV.stats_str (CProfileV.read_reports self q)))
    as [|row0 [|row1 rows]] eqn:Hrows.
  - rewrite format_stats_table_short by (rewrite Hrows; simpl; lia).
    simpl. split; split; try lia; auto. intros (page & H). discriminate.
  - rewrite format_stats_table_short by (rewrite Hrows; simpl; lia).
    simpl. split; split; try lia; auto. intros (page & H). discriminate.
  - destruct (format_stats_table_two_rows _ _ _ _ Hrows) as (out & Hout).
    rewrite Hout. simpl. split; split; try lia; try discriminate.
    intros _. eexists. reflexivity.
Qed.

(** X13. Reports shown one after the other without a read in between pile
    up in the stream: the read returns both texts, in the order they were
    written, and empties the stream. *)
Theorem shows_accumulate_until_read
        (q : Bottle.multidict) (backend : pstats) (f g : string) :
  Stats.read q (Stats.show_callees
                  (Stats.show_callers (Stats.init backend) f) g)
  = (linked q (written (print_callers backend f)
               ++ written (print_callees backend g)),
     Stats.mk backend StringIO.empty).
Proof.
  rewrite read_linked.
  unfold Stats.show_callees, Stats.show_callers, Stats.write_all, Stats.init.
  cbn [Stats.stats Stats.stream].
  change StringIO.empty with (StringIO.mk "" (String.length "")).
  rewrite write_all_at_end. cbn [append].
  rewrite write_all_at_end. reflexivity.
Qed.

(** ** The values in the page *)

Lemma render_page_head (e : Bottle.env) :
  exists a b c d,
    Bottle.render_lines e [] CProfileV.page_head
    = a ++ ("<title>" ++ Bottle.html_escape (Bottle.lookup e "title")
              ++ " | cProfile Results</title>")
        ++ b ++ ("<pre>" ++ Bottle.lookup e "stats_header" ++ "</pre>")
        ++ c ++ ("<table class=" ++ CProfileV.dq ++ "table table-striped"
                   ++ CProfileV.dq ++ ">"
                   ++ Bottle.lookup e "stats_table" ++ "</table>")
        ++ d.
Proof.
  exists (Bottle.render_lines [] [] [CProfileV.T "<html>";
                                     CProfileV.T "    <head>"]
          ++ "        "),
    (Py.nl
     ++ Bottle.render_lines
          [] []
          [CProfileV.stylesheet "twitter-bootstrap/3.3.6/css/bootstrap.min.css";
           CProfileV.stylesheet
             "datatables/1.10.10/css/dataTables.bootstrap.min.css";
           CProfileV.T "    </head>";
           CProfileV.T "    <body>";
           CProfileV.T ("        <div class=" ++ CProfileV.dq ++ "container"
                        ++ CProfileV.dq ++ ">")]
     ++ "            "),
    (Py.nl ++ "            "),
    (Py.nl ++ Bottle.render_lines e [] (skipn 10 CProfileV.page_head)).
  cbn [skipn]. flatten_appends. reflexivity.
Qed.

(** X14. In the page the title stands HTML-escaped inside the [title]
    element, and behind it, in this order, the header of the report inside
    a [pre] element and the table inside the [table] element, both written
    as they are, without escaping. *)
Theorem route_handler_page_values
        (self : CProfileV.t) (q : Bottle.multidict) (table : string) :
  Stats.format_stats_table
    (CProfileV.stats_str (CProfileV.read_reports self q)) = Py.Ok table ->
  exists a b c d,
    CProfileV.route_handler self q
    = Py.Ok
        (a ++ ("<title>" ++ Bottle.html_escape (CProfileV.title self)
                 ++ " | cProfile Results</title>")
           ++ b ++ ("<pre>"
                      ++ Stats.get_stats_header
                           (CProfileV.stats_str (CProfileV.read_reports self q))
                      ++ "</pre>")
           ++ c ++ ("<table class=" ++ CProfileV.dq ++ "table table-striped"
                      ++ CProfileV.dq ++ ">" ++ table ++ "</table>")
           ++ d).
Proof.
  intros Htable. rewrite route_handler_env, Htable. cbn [Py.bind].
  rewrite page_sections.
  destruct (render_page_head (page_env self q table)) as (a & b & c & d & ->).
  exists a, b, c.
  eexists. f_equal. rewrite !append_assoc. reflexivity.
Qed.

Lemma route_handler_page_values_witness :
  let report := "ncalls tottime percall cumtime percall function" ++ Py.nl
                ++ "1 0.1 0.1 0.2 0.2 m.py:1(foo)" ++ Py.nl in
  let self := CProfileV.mk (Build_pstats (fun _ => [report])
                                         (fun _ => [])
                                         (fun _ => []))
                           "a<b" in
  exists table,
    Stats.format_stats_table
      (CProfileV.stats_str (CProfileV.read_reports self [])) = Py.Ok table
    /\ Py.contains "<td>m.py:1(<a href='?func_name=foo'>foo</a>)</td>" table
       = true
    /\ exists a b c d,
        CProfileV.route_handler self []
        = Py.Ok
            (a ++ ("<title>" ++ Bottle.html_escape "a<b"
                     ++ " | cProfile Results</title>")
               ++ b ++ ("<pre>"
                          ++ Stats.get_stats_header
                               (CProfileV.stats_str
                                  (CProfileV.read_reports self []))
                          ++ "</pre>")
               ++ c ++ ("<table class=" ++ CProfileV.dq ++ "table table-striped"
                          ++ CProfileV.dq ++ ">" ++ table ++ "</table>")
               ++ d).
Proof.
  cbv zeta. eexists.
  split; [vm_compute; reflexivity|].
  split; [vm_compute; reflexivity|].
  apply (route_handler_page_values
           (CProfileV.mk
              (Build_pstats
                 (fun _ => ["ncalls tottime percall cumtime percall function"
                              ++ Py.nl
                              ++ "1 0.1 0.1 0.2 0.2 m.py:1(foo)" ++ Py.nl])
                 (fun _ => []) (fun _ => []))
              "a<b")
           []).
  vm_compute. reflexivity.
Defined.
